(** * Cron controllers of Oppia: stuck-job mailer, map/reduce reaper and
    the auxiliary-entity cleanup job ([core/controllers/cron.py]).

    The handlers are embedded as functions that thread the datastore and
    the in-memory job instances explicitly and record every call made to
    a collaborator (datastore write, pipeline cleanup, log line, job
    enqueue, mail) in a chronological trace. *)

From stdpp Require Import gmap strings list fin_maps pretty.
From Stdlib Require Import ZArith Lia Ascii.

Local Open Scope Z_scope.

(** ** Constants of the module *)

(** The default retention timeline is 2 days. *)
Definition MAX_MAPREDUCE_METADATA_RETENTION_MSECS : Z := 2 * 24 * 60 * 60 * 1000.

(** Name of the additional parameter passed into the MR job that cleans
    up old auxiliary job models. *)
Definition MAPPER_PARAM_MAX_START_TIME_MSEC : string := "max_start_time_msec".

(** ** Data model *)

(** A row of [job_models.JobModel]: the fields read or written by the
    handlers, plus the datastore key that [put] writes under. *)
Record JobModel := mkJobModel {
  entity_key : string;
  time_started_msec : Z;
  has_been_cleaned_up : bool;
  metadata : gmap string string
}.

(** [job_instance.has_been_cleaned_up = True] *)
Definition set_cleaned_up (job_instance : JobModel) : JobModel :=
  {| entity_key := entity_key job_instance;
     time_started_msec := time_started_msec job_instance;
     has_been_cleaned_up := true;
     metadata := metadata job_instance |}.

(** One entry of [pipeline.get_root_list()['pipelines']]; the key
    ['startTimeMs'] may be absent from the dict. *)
Record Pline := mkPline {
  pipelineId : string;
  status : string;
  currentAttempt : Z;
  maxAttempts : Z;
  startTimeMs : option Z
}.

(** The object returned by [pipeline.Pipeline.from_id]. *)
Record Pipeline := mkPipeline { pipeline_id : string }.

(** The part of [utils] and of Python's [datetime] that the handlers
    rely on: the conversion to milliseconds and the [%s] rendering. *)
Class Datetime := {
  datetime : Type;
  get_time_in_millisecs : datetime -> Z;
  str_datetime : datetime -> string
}.

Section Models.
Context `{Datetime}.

(** [mapreduce_model.MapreduceState]: one row per map/reduce run. *)
Record MapreduceState := mkMapreduceState {
  mr_key_name : string;
  mr_result_status : option string;
  start_time : datetime
}.

(** [mapreduce_model.ShardState]: one row per shard; the text fields
    hold what [%s] prints for them. *)
Record ShardState := mkShardState {
  key_name : string;
  mapreduce_id : string;
  result_status : option string;
  counters_map : string;
  retries : Z;
  slice_retries : Z;
  update_time : datetime;
  last_work_item : string
}.

(** The items handed to the mapper, by class. *)
Inductive Entity :=
| IsMapreduceState (item : MapreduceState)
| IsShardState (item : ShardState).
End Models.

(** The request as seen by a handler ([self.request.headers] and
    [self.is_super_admin]). *)
Record Request := mkRequest {
  headers : gmap string string;
  is_super_admin : bool
}.

Inductive Exception :=
| UnauthorizedUserException (msg : string).

(** Calls made to collaborators, in the order they happen. *)
Inductive Effect :=
| Put (job_instance : JobModel)
| Cleanup (p : Pipeline)
| Warning (msg : string)
| Enqueue (job_class : string) (additional_job_params : gmap string Z)
| SendMailToAdmin (recipient subject body : string).

(** The collaborators that the handlers call and whose code lives
    outside this module: the clock, the job-model queries and the
    pipeline library.  The queries read the datastore they are given. *)
Record Platform := mkPlatform {
  get_current_time_in_millisecs : Z;
  get_recent_jobs : list JobModel -> Z -> Z -> list JobModel;
  do_unfinished_jobs_exist : list JobModel -> string -> bool;
  get_root_list : list Pline;
  from_id : string -> option Pipeline
}.

(** ** The datastore *)

(** [job_instance.put()]: the row stored under the same key is replaced;
    a key that is not stored yet gets a new row. *)
Fixpoint put (job_instance : JobModel) (rows : list JobModel) : list JobModel :=
  match rows with
  | [] => [job_instance]
  | row :: rest =>
      if bool_decide (entity_key row = entity_key job_instance)
      then job_instance :: rest
      else row :: put job_instance rest
  end.

(** ** The decorator *)

(** [require_cron_or_superadmin]: the wrapped handler runs only when the
    request carries the [X-AppEngine-Cron] header or comes from a
    superadmin; otherwise [UnauthorizedUserException] is raised. *)
Definition require_cron_or_superadmin {R : Type}
    (handler : Request -> Exception + R) (self : Request) : Exception + R :=
  if bool_decide (headers self !! "X-AppEngine-Cron" = None)
     && negb (is_super_admin self)
  then inl (UnauthorizedUserException
              "You do not have the credentials to access this page.")
  else handler self.

(** ** JobStatusMailerHandler *)

Definition LF : string := String "010"%char EmptyString.

Module JobStatusMailerHandler.
Section WithJobs.
Context `{Datetime}.
(** [jobs.get_stuck_jobs] and [feconf.ADMIN_EMAIL_ADDRESS]. *)
Variable get_stuck_jobs : Z -> list ShardState.
Variable ADMIN_EMAIL_ADDRESS : string.

Definition TWENTY_FIVE_HOURS_IN_MSECS : Z := 25 * 60 * 60 * 1000.
Definition MAX_JOBS_TO_REPORT_ON : nat := 50.

(** The first value of [email_message] when there are failed jobs. *)
Definition email_header (failed_jobs : list ShardState) : string :=
  pretty (length failed_jobs)
  +:+ " jobs have failed in the past 25 hours. More information "
  +:+ "(about at most " +:+ pretty MAX_JOBS_TO_REPORT_ON
  +:+ " jobs; to see more, please check the logs):".

Definition separator : string := "-----------------------------------".

(** The last [+=] of the loop body: the formatted details of a job. *)
Definition job_details (job : ShardState) : string :=
  "Job with mapreduce ID " +:+ mapreduce_id job
  +:+ " (key name " +:+ key_name job +:+ ") failed. More info:"
  +:+ LF +:+ LF
  +:+ "  counters_map: " +:+ counters_map job +:+ LF
  +:+ "  shard_retries: " +:+ pretty (retries job) +:+ LF
  +:+ "  slice_retries: " +:+ pretty (slice_retries job) +:+ LF
  +:+ "  last_update_time: " +:+ str_datetime (update_time job) +:+ LF
  +:+ "  last_work_item: " +:+ last_work_item job +:+ LF.

(** One pass through the body of the [for] loop. *)
Definition append_job (email_message : string) (job : ShardState) : string :=
  (((email_message +:+ LF) +:+ separator) +:+ LF) +:+ job_details job.

Definition email_message (failed_jobs : list ShardState) : string :=
  match failed_jobs with
  | [] => "All MapReduce jobs are running fine."
  | _ :: _ =>
      foldl append_job (email_header failed_jobs)
        (take MAX_JOBS_TO_REPORT_ON failed_jobs)
  end.

Definition email_subject (failed_jobs : list ShardState) : string :=
  match failed_jobs with
  | [] => "MapReduce status report"
  | _ :: _ => "MapReduce failure alert"
  end.

(** The body of [get], below the decorator. *)
Definition get_undecorated (self : Request) : Exception + list Effect :=
  let failed_jobs := get_stuck_jobs TWENTY_FIVE_HOURS_IN_MSECS in
  inr [SendMailToAdmin ADMIN_EMAIL_ADDRESS
         (email_subject failed_jobs) (email_message failed_jobs)].

Definition get : Request -> Exception + list Effect :=
  require_cron_or_superadmin get_undecorated.
End WithJobs.
End JobStatusMailerHandler.

(** ** _JobCleanupManager *)

Module _JobCleanupManager.

(** What one call of the mapper does, in order. *)
Inductive MapOutput `{Datetime} :=
| Delete (item : Entity)
| Yield (key : string) (value : Z).

(** [key.endswith(suffix)] *)
Definition endswith (key suffix : string) : bool :=
  String.prefix (String.rev suffix) (String.rev key).

(** [ast.literal_eval] on the values that reach [reduce]: decimal
    integer literals, with an optional sign; anything else raises. *)
Fixpoint eval_digits (acc : Z) (v : string) : option Z :=
  match v with
  | EmptyString => Some acc
  | String c rest =>
      let d := Z.of_nat (nat_of_ascii c) - 48 in
      if bool_decide (0 <= d <= 9) then eval_digits (10 * acc + d) rest
      else None
  end.

Definition literal_eval (v : string) : option Z :=
  match v with
  | EmptyString => None
  | String "-"%char EmptyString => None
  | String "-"%char rest => Z.opp <$> eval_digits 0 rest
  | _ => eval_digits 0 v
  end.

Definition sum (values : list Z) : Z := foldr Z.add 0 values.

Section WithContext.
Context `{Datetime}.
(** [_JobCleanupManager.get_mapper_param]: the parameters the running
    job was enqueued with. *)
Variable get_mapper_param : string -> Z.

Definition entity_classes_to_map_over : list string :=
  ["MapreduceState"; "ShardState"].

Definition map (item : Entity) : list MapOutput :=
  let max_start_time_msec :=
    get_mapper_param MAPPER_PARAM_MAX_START_TIME_MSEC in
  (match item with
   | IsMapreduceState mr =>
       if bool_decide (mr_result_status mr = Some "success")
          && bool_decide
               (get_time_in_millisecs (start_time mr) < max_start_time_msec)
       then [Delete item; Yield "mr_state_deleted" 1]
       else [Yield "mr_state_remaining" 1]
   | IsShardState _ => []
   end)
  ++
  (match item with
   | IsShardState shard =>
       if bool_decide (result_status shard = Some "success")
          && bool_decide
               (get_time_in_millisecs (update_time shard) < max_start_time_msec)
       then [Delete item; Yield "shard_state_deleted" 1]
       else [Yield "mr_state_remaining" 1]
   | IsMapreduceState _ => []
   end).

(** [reduce] logs one line; [None] stands for the exception raised
    when a value is not a literal. *)
Definition reduce (key : string) (stringified_values : list string)
    : option Effect :=
  values ← mapM literal_eval stringified_values;
  Some (Warning
    (if endswith key "_deleted" then
       "Delete count: " +:+ pretty (sum values)
       +:+ " entities (" +:+ key +:+ ")"
     else
       "Entities remaining count: " +:+ pretty (sum values)
       +:+ " entities (" +:+ key +:+ ")")).

(** The pairs yielded by the mapper over all items. *)
Definition yielded (items : list Entity) : list (string * Z) :=
  items ≫= (fun item =>
    omap (fun o => match o with
                   | Yield k v => Some (k, v)
                   | Delete _ => None
                   end) (map item)).

(** Modelled from the spec: the batch runtime between [map] and
    [reduce] is not part of this module; "a final aggregation step
    sums tallies per key", so the yielded values are grouped by key,
    stringified, and each group is handed to [reduce] once. *)
Definition shuffle (pairs : list (string * Z)) : gmap string (list string) :=
  foldl (fun groups kv =>
           <[kv.1 := default [] (groups !! kv.1) ++ [pretty kv.2]]> groups)
    ∅ pairs.

Definition aggregate (items : list Entity) : gmap string (option Effect) :=
  map_imap (fun key vs => Some (reduce key vs)) (shuffle (yielded items)).
End WithContext.
End _JobCleanupManager.

(** ** CronMapreduceCleanupHandler *)

Module CronMapreduceCleanupHandler.

(** State threaded through [_clean_mapreduce]: the fetched job instances
    (Python objects, addressed by their position in [job_instances]),
    the datastore, the trace of calls and the local [num_cleaned]. *)
Record ReapState := mkReapState {
  heap : list JobModel;
  store : list JobModel;
  trace : list Effect;
  num_cleaned : Z
}.

(** The first loop: [pipeline_id_to_job_instance], whose values are
    references to the fetched instances. [ref] is the position of the
    head of [job_instances] in the fetched list. *)
Fixpoint collect_pipeline_ids (max_start_time_msec : Z) (ref : nat)
    (job_instances : list JobModel)
    (pipeline_id_to_job_instance : gmap string nat) : gmap string nat :=
  match job_instances with
  | [] => pipeline_id_to_job_instance
  | job_instance :: rest =>
      collect_pipeline_ids max_start_time_msec (S ref) rest
        (if bool_decide (time_started_msec job_instance < max_start_time_msec)
            && negb (has_been_cleaned_up job_instance)
         then match metadata job_instance !! "root_pipeline_id" with
              | Some pipeline_id =>
                  <[pipeline_id := ref]> pipeline_id_to_job_instance
              | None => pipeline_id_to_job_instance
              end
         else pipeline_id_to_job_instance)
  end.

Definition job_definitely_terminated (pline : Pline) : bool :=
  bool_decide (status pline = "done")
  || bool_decide (status pline = "aborted")
  || bool_decide (currentAttempt pline > maxAttempts pline).

Definition have_start_time (pline : Pline) : bool :=
  match startTimeMs pline with Some _ => true | None => false end.

Definition job_started_too_long_ago (max_start_time_msec : Z) (pline : Pline) : bool :=
  match startTimeMs pline with
  | Some t => bool_decide (t < max_start_time_msec)
  | None => false
  end.

(** The condition of the [if] that guards the body of the second loop. *)
Definition judged_terminable (max_start_time_msec : Z) (pline : Pline) : bool :=
  job_started_too_long_ago max_start_time_msec pline
  || (negb (have_start_time pline) && job_definitely_terminated pline).

(** [job_instance.has_been_cleaned_up = True; job_instance.put()] on the
    instance behind [ref]. *)
Definition mark_cleaned_up (ref : nat) (st : ReapState) : ReapState :=
  match heap st !! ref with
  | Some job_instance =>
      let marked := set_cleaned_up job_instance in
      {| heap := <[ref := marked]> (heap st);
         store := put marked (store st);
         trace := trace st ++ [Put marked];
         num_cleaned := num_cleaned st |}
  | None => st
  end.

(** [p = pipeline.Pipeline.from_id(pipeline_id); if p: ...] *)
Definition request_cleanup (P : Platform) (pipeline_id : string)
    (st : ReapState) : ReapState :=
  match from_id P pipeline_id with
  | Some p =>
      {| heap := heap st;
         store := store st;
         trace := trace st ++ [Cleanup p];
         num_cleaned := num_cleaned st + 1 |}
  | None => st
  end.

(** Body of the loop over the root pipelines. *)
Definition clean_pipeline (P : Platform) (max_start_time_msec : Z)
    (pipeline_id_to_job_instance : gmap string nat)
    (st : ReapState) (pline : Pline) : ReapState :=
  let pipeline_id := pipelineId pline in
  if judged_terminable max_start_time_msec pline then
    request_cleanup P pipeline_id
      (match pipeline_id_to_job_instance !! pipeline_id with
       | Some ref => mark_cleaned_up ref st
       | None => st
       end)
  else st.

Definition log_warning (msg : string) (st : ReapState) : ReapState :=
  {| heap := heap st; store := store st;
     trace := trace st ++ [Warning msg]; num_cleaned := num_cleaned st |}.

(** [_JobCleanupManager.enqueue(_JobCleanupManager.create_new(), ...)],
    recorded as one call to the batch-job runtime. *)
Definition enqueue (job_class : string) (additional_job_params : gmap string Z)
    (st : ReapState) : ReapState :=
  {| heap := heap st; store := store st;
     trace := trace st ++ [Enqueue job_class additional_job_params];
     num_cleaned := num_cleaned st |}.

(** The values computed at the top of [_clean_mapreduce]. *)
Definition max_age_msec (recency_msec : Z) : Z :=
  recency_msec + 7 * 24 * 60 * 60 * 1000.

Definition max_start_time_msec (P : Platform) (recency_msec : Z) : Z :=
  get_current_time_in_millisecs P - recency_msec.

Definition job_instances (P : Platform) (recency_msec : Z)
    (rows : list JobModel) : list JobModel :=
  get_recent_jobs P rows 1000 (max_age_msec recency_msec).

Definition pipeline_id_to_job_instance (P : Platform) (recency_msec : Z)
    (rows : list JobModel) : gmap string nat :=
  collect_pipeline_ids (max_start_time_msec P recency_msec) 0
    (job_instances P recency_msec rows) ∅.

(** The state after the loop over the root pipelines. *)
Definition clean_pipelines (P : Platform) (recency_msec : Z)
    (rows : list JobModel) : ReapState :=
  foldl
    (clean_pipeline P (max_start_time_msec P recency_msec)
       (pipeline_id_to_job_instance P recency_msec rows))
    {| heap := job_instances P recency_msec rows;
       store := rows; trace := []; num_cleaned := 0 |}
    (get_root_list P).

(** The single-flight guard at the end of [_clean_mapreduce]. *)
Definition kick_off_cleanup_job (P : Platform) (recency_msec : Z)
    (st : ReapState) : ReapState :=
  if do_unfinished_jobs_exist P (store st) "_JobCleanupManager" then
    log_warning "A previous cleanup job is still running." st
  else
    log_warning "Deletion jobs for auxiliary entities kicked off."
      (enqueue "_JobCleanupManager"
         {[ MAPPER_PARAM_MAX_START_TIME_MSEC := max_start_time_msec P recency_msec ]}
         st).

Definition _clean_mapreduce (P : Platform) (recency_msec : Z)
    (rows : list JobModel) : ReapState :=
  let st := clean_pipelines P recency_msec rows in
  kick_off_cleanup_job P recency_msec
    (log_warning (pretty (num_cleaned st) +:+ " MR jobs cleaned up.") st).

(** [get] carries no decorator: it calls [_clean_mapreduce] directly. *)
Definition get (P : Platform) (rows : list JobModel) (self : Request)
    : Exception + ReapState :=
  inr (_clean_mapreduce P MAX_MAPREDUCE_METADATA_RETENTION_MSECS rows).

End CronMapreduceCleanupHandler.

(** ** Reading a trace *)

Definition put_calls (tr : list Effect) : list JobModel :=
  omap (fun e => match e with Put j => Some j | _ => None end) tr.

Definition cleanup_calls (tr : list Effect) : list Pipeline :=
  omap (fun e => match e with Cleanup p => Some p | _ => None end) tr.

Definition enqueue_calls (tr : list Effect) : list (string * gmap string Z) :=
  omap (fun e => match e with Enqueue c ps => Some (c, ps) | _ => None end) tr.

(** [Pipeline.from_id] found an object for the pipeline. *)
Definition resolved (P : Platform) (pline : Pline) : bool :=
  match from_id P (pipelineId pline) with Some _ => true | None => false end.

(** The same platform with another list of root pipelines. *)
Definition with_root_list (plines : list Pline) (P : Platform) : Platform :=
  {| get_current_time_in_millisecs := get_current_time_in_millisecs P;
     get_recent_jobs := get_recent_jobs P;
     do_unfinished_jobs_exist := do_unfinished_jobs_exist P;
     get_root_list := plines;
     from_id := from_id P |}.

(** A query only returns rows that are stored. *)
Definition query_sound (P : Platform) : Prop :=
  forall rows limit recency_msec job_instance,
    job_instance ∈ get_recent_jobs P rows limit recency_msec ->
    job_instance ∈ rows.

(** ** A concrete platform, for running the handlers on examples *)

Module Examples.
Import CronMapreduceCleanupHandler.

(** Modelled from the spec: [JobModel.get_recent_jobs] is defined in the
    storage layer, outside this module; the reaper is to "fetch up to a
    bounded count (e.g. 1000) of job records whose start time falls
    within [now-maxAgeMsec, now]". *)
Definition recent_jobs (now : Z) (rows : list JobModel)
    (limit recency_msec : Z) : list JobModel :=
  take (Z.to_nat limit)
    (filter (fun j => now - recency_msec <= time_started_msec j <= now) rows).

Definition now : Z := 1000000000.

Definition platform (plines : list Pline) (found unfinished : bool) : Platform :=
  {| get_current_time_in_millisecs := now;
     get_recent_jobs := recent_jobs now;
     do_unfinished_jobs_exist := fun _ _ => unfinished;
     get_root_list := plines;
     from_id := fun i => if found then Some (mkPipeline i) else None |}.

Definition job (key : string) (started : Z) (cleaned : bool)
    (root_pipeline_id : option string) : JobModel :=
  {| entity_key := key; time_started_msec := started;
     has_been_cleaned_up := cleaned;
     metadata := match root_pipeline_id with
                 | Some i => {[ "root_pipeline_id" := i ]}
                 | None => ∅
                 end |}.

(** With the 2-day retention, [max_start_time_msec] is 827200000 here. *)
Definition job1 : JobModel := job "job1" 500000000 false (Some "p1").
Definition job2 : JobModel := job "job2" 600000000 false (Some "p2").
Definition job3 : JobModel := job "job3" 700000000 false None.

Definition rows : list JobModel := [job1; job2; job3].

(** Two eligible records that name the same root pipeline. *)
Definition job1_rerun : JobModel := job "job1b" 550000000 false (Some "p1").
Definition rows_with_rerun : list JobModel := [job1; job1_rerun; job3].

Definition done_without_start : Pline := mkPline "p1" "done" 1 3 None.
Definition done_recent_start : Pline := mkPline "p1" "done" 1 3 (Some 900000000).
Definition exhausted_without_start : Pline := mkPline "p1" "running" 4 3 None.
Definition running_old_start : Pline := mkPline "p2" "running" 1 3 (Some 100000000).
Definition running_without_start : Pline := mkPline "p2" "running" 1 3 None.

Definition run (plines : list Pline) (found unfinished : bool)
    (stored : list JobModel) : ReapState :=
  _clean_mapreduce (platform plines found unfinished)
    MAX_MAPREDUCE_METADATA_RETENTION_MSECS stored.

#[local] Instance msec_datetime : Datetime :=
  {| datetime := Z; get_time_in_millisecs := fun t => t;
     str_datetime := fun t => pretty t |}.

Definition shard (n : nat) (status : option string) (updated : Z) : ShardState :=
  {| key_name := "shard-" +:+ pretty n; mapreduce_id := "mr-" +:+ pretty n;
     result_status := status; counters_map := "{}"; retries := 0;
     slice_retries := 0; update_time := updated; last_work_item := "None" |}.

Definition mr_run (n : nat) (status : option string) (started : Z) : MapreduceState :=
  {| mr_key_name := "mr-" +:+ pretty n; mr_result_status := status;
     start_time := started |}.

Definition stuck_jobs (n : nat) : list ShardState :=
  (fun i => shard i (Some "failed") 0) <$> seq 0 n.

Definition cron_request : Request :=
  {| headers := {[ "X-AppEngine-Cron" := "true" ]}; is_super_admin := false |}.
Definition superadmin_request : Request :=
  {| headers := ∅; is_super_admin := true |}.
Definition anonymous_request : Request :=
  {| headers := ∅; is_super_admin := false |}.

(** The lines of a mail body, and how many of them are the separator
    that opens a detail block. *)
Fixpoint lines_of (body : string) : list string :=
  match body with
  | EmptyString => [EmptyString]
  | String c rest =>
      if bool_decide (c = "010"%char) then EmptyString :: lines_of rest
      else match lines_of rest with
           | l :: ls => String c l :: ls
           | [] => [String c EmptyString]
           end
  end.

Definition count_blocks (body : string) : nat :=
  length (filter (fun l => l = JobStatusMailerHandler.separator)
            (lines_of body)).

Definition mail (n : nat) : Exception + list Effect :=
  JobStatusMailerHandler.get_undecorated (fun _ => stuck_jobs n)
    "admin@example.com" cron_request.

Definition failed_and_recent : list Entity :=
  [IsMapreduceState (mr_run 1 (Some "failed") 0);
   IsShardState (shard 1 (Some "failed") 0);
   IsShardState (shard 2 (Some "success") 5000)].
End Examples.

Import CronMapreduceCleanupHandler.

(** ** The loop over the root pipelines, read as a specification *)

(** The calls that one root pipeline gives rise to, as a function of
    the fetched instances and of the mapping built from them. *)
Definition calls_for (P : Platform) (max_start_time_msec : Z)
    (mapping : gmap string nat) (fetched : list JobModel)
    (pline : Pline) : list Effect :=
  if judged_terminable max_start_time_msec pline then
    match mapping !! pipelineId pline ≫= (fun ref => fetched !! ref) with
    | Some job_instance => [Put (set_cleaned_up job_instance)]
    | None => []
    end
    ++ match from_id P (pipelineId pline) with
       | Some p => [Cleanup p]
       | None => []
       end
  else [].

(** The instances on the heap are the fetched ones, some of them marked. *)
Definition heap_tracks (fetched : list JobModel) (st : ReapState) : Prop :=
  length (heap st) = length fetched /\
  forall ref j0, fetched !! ref = Some j0 ->
    heap st !! ref = Some j0 \/ heap st !! ref = Some (set_cleaned_up j0).

(** The datastore holds a cleaned-up row under key [k]. *)
Definition cleaned_row (k : string) (rows : list JobModel) : Prop :=
  exists row, row ∈ rows /\ entity_key row = k /\ has_been_cleaned_up row = true.

(** ** The mail body, read as a specification *)

(** What one pass through the loop of [JobStatusMailerHandler.get] adds
    to the message: the detail block of a job. *)
Definition detail_block `{Datetime} (job : ShardState) : string :=
  LF +:+ JobStatusMailerHandler.separator +:+ LF
  +:+ JobStatusMailerHandler.job_details job.

Definition join (blocks : list string) : string :=
  foldr String.append EmptyString blocks.

(** ** Vocabulary of the further properties *)

(** A fetched instance enters the mapping under [pid]: it started
    before [max_start_time_msec], is not cleaned up yet, and its metadata
    carries [pid] as ['root_pipeline_id']. *)
Definition eligible (max_start_time_msec : Z) (job_instance : JobModel)
    (pid : string) : Prop :=
  time_started_msec job_instance < max_start_time_msec
  /\ has_been_cleaned_up job_instance = false
  /\ metadata job_instance !! "root_pipeline_id" = Some pid.

(** Two datastores with the same rows in the same order, up to
    cleaned-up flags that were set. *)
Definition only_flags_set (before after : list JobModel) : Prop :=
  Forall2 (fun row row' => row' = row \/ row' = set_cleaned_up row)
    before after.

(** The condition under which the mapper deletes an item. *)
Definition stale `{Datetime} (max_start_time_msec : Z) (item : Entity) : Prop :=
  match item with
  | IsMapreduceState mr =>
      mr_result_status mr = Some "success"
      /\ get_time_in_millisecs (start_time mr) < max_start_time_msec
  | IsShardState shard =>
      result_status shard = Some "success"
      /\ get_time_in_millisecs (update_time shard) < max_start_time_msec
  end.

(** [s] holds no line feed. *)
Fixpoint no_line_feed (s : string) : bool :=
  match s with
  | EmptyString => true
  | String c rest => negb (bool_decide (c = "010"%char)) && no_line_feed rest
  end.

(** The lines of the details of a job, as the format string of
    [JobStatusMailerHandler.get] lays them out. *)
Definition detail_lines `{Datetime} (job : ShardState) : list string :=
  [ "Job with mapreduce ID " +:+ mapreduce_id job
    +:+ " (key name " +:+ key_name job +:+ ") failed. More info:";
    EmptyString;
    "  counters_map: " +:+ counters_map job;
    "  shard_retries: " +:+ pretty (retries job);
    "  slice_retries: " +:+ pretty (slice_retries job);
    "  last_update_time: " +:+ str_datetime (update_time job);
    "  last_work_item: " +:+ last_work_item job ].

(** The fields of a job that are printed as text hold no line feed. *)
Definition single_line_fields `{Datetime} (job : ShardState) : Prop :=
  no_line_feed (mapreduce_id job) = true
  /\ no_line_feed (key_name job) = true
  /\ no_line_feed (counters_map job) = true
  /\ no_line_feed (str_datetime (update_time job)) = true
  /\ no_line_feed (last_work_item job) = true.

(** ** Facts about the datastore and the trace readers *)

Lemma set_cleaned_up_marked (j : JobModel) :
  has_been_cleaned_up j = true -> set_cleaned_up j = j.
Proof. destruct j as [k t c md]; simpl; intros ->; reflexivity. Qed.

(** After [put], the written row is the stored row of its key. *)
Lemma put_stores (j : JobModel) (rows : list JobModel) : j ∈ put j rows.
Proof.
  induction rows as [|row rest IH]; simpl.
  - apply list_elem_of_singleton; reflexivity.
  - case_bool_decide; [left | right; exact IH].
Qed.

(** Rows of [put j rows] are [j] or rows that were there before. *)
Lemma put_rows (j row : JobModel) (rows : list JobModel) :
  row ∈ put j rows -> row = j \/ row ∈ rows.
Proof.
  induction rows as [|r rest IH]; simpl.
  - intros Hin%list_elem_of_singleton; left; exact Hin.
  - case_bool_decide as Hk.
    + intros [->|Hin]%elem_of_cons; [left; reflexivity | right; right; exact Hin].
    + intros [->|Hin]%elem_of_cons; [right; left |].
      destruct (IH Hin) as [->|Hr]; [left; reflexivity | right; right; exact Hr].
Qed.

(** A key that holds a cleaned-up row keeps one when a cleaned-up row is
    written, under whatever key. *)
Lemma put_keeps_cleaned (j : JobModel) (rows : list JobModel) (k : string) :
  has_been_cleaned_up j = true ->
  (exists row, row ∈ rows /\ entity_key row = k /\ has_been_cleaned_up row = true) ->
  exists row, row ∈ put j rows /\ entity_key row = k
              /\ has_been_cleaned_up row = true.
Proof.
  intros Hj (row & Hin & Hk & Hc).
  induction rows as [|r rest IH]; [inversion Hin |].
  simpl. case_bool_decide as Hr.
  - apply elem_of_cons in Hin as [<-|Hin].
    + exists j; repeat split; [left | congruence | exact Hj].
    + exists row; repeat split; [right; exact Hin | exact Hk | exact Hc].
  - apply elem_of_cons in Hin as [<-|Hin].
    + exists row; repeat split; [left | exact Hk | exact Hc].
    + destruct (IH Hin) as (row' & Hin' & Hk' & Hc').
      exists row'; repeat split; [right; exact Hin' | exact Hk' | exact Hc'].
Qed.

Lemma put_keys (j : JobModel) (rows : list JobModel) (k : string) :
  k ∈ entity_key <$> put j rows ->
  k = entity_key j \/ k ∈ entity_key <$> rows.
Proof.
  intros (row & -> & Hin)%list_elem_of_fmap.
  destruct (put_rows _ _ _ Hin) as [->|Hr]; [left; reflexivity |].
  right; apply list_elem_of_fmap; exists row; split; [reflexivity | exact Hr].
Qed.

(** [put] never creates a second row for a key. *)
Lemma put_NoDup (j : JobModel) (rows : list JobModel) :
  NoDup (entity_key <$> rows) -> NoDup (entity_key <$> put j rows).
Proof.
  induction rows as [|r rest IH]; simpl; intros Hnd.
  - apply NoDup_singleton.
  - apply NoDup_cons in Hnd as [Hr Hrest].
    case_bool_decide as Hk; simpl.
    + apply NoDup_cons; split; [rewrite <- Hk; exact Hr | exact Hrest].
    + apply NoDup_cons; split; [| exact (IH Hrest)].
      intros [Heq|Hin]%put_keys; [congruence | exact (Hr Hin)].
Qed.

(** Under distinct keys a key identifies its row. *)
Lemma NoDup_keys_eq (rows : list JobModel) (r1 r2 : JobModel) :
  NoDup (entity_key <$> rows) ->
  r1 ∈ rows -> r2 ∈ rows -> entity_key r1 = entity_key r2 -> r1 = r2.
Proof.
  induction rows as [|r rest IH]; simpl; intros Hnd H1 H2 Hk; [inversion H1 |].
  apply NoDup_cons in Hnd as [Hr Hrest].
  apply elem_of_cons in H1 as [->|H1]; apply elem_of_cons in H2 as [->|H2].
  - reflexivity.
  - exfalso; apply Hr; rewrite Hk.
    apply list_elem_of_fmap; exists r2; split; [reflexivity | exact H2].
  - exfalso; apply Hr; rewrite <- Hk.
    apply list_elem_of_fmap; exists r1; split; [reflexivity | exact H1].
  - exact (IH Hrest H1 H2 Hk).
Qed.

(** ** The loop over the root pipelines *)

Section Loop.
Variable P : Platform.
Variable ms : Z.
Variable m : gmap string nat.
Variable fetched : list JobModel.

Abbreviation step := (clean_pipeline P ms m).

Lemma heap_tracks_lookup (st : ReapState) (ref : nat) (j : JobModel) :
  heap_tracks fetched st -> heap st !! ref = Some j ->
  exists j0, fetched !! ref = Some j0 /\ set_cleaned_up j = set_cleaned_up j0.
Proof.
  intros [Hlen Htr] Hj.
  assert (Hlt : (ref < length fetched)%nat)
    by (rewrite <- Hlen; eapply lookup_lt_Some; exact Hj).
  destruct (lookup_lt_is_Some_2 _ _ Hlt) as [j0 Hj0].
  exists j0; split; [exact Hj0 |].
  destruct (Htr _ _ Hj0) as [H0|H0]; rewrite H0 in Hj;
    injection Hj as <-; reflexivity.
Qed.

Lemma mark_heap_tracks (st : ReapState) (ref : nat) :
  heap_tracks fetched st -> heap_tracks fetched (mark_cleaned_up ref st).
Proof.
  intros Hst. unfold mark_cleaned_up.
  destruct (heap st !! ref) as [j|] eqn:Hj; [| exact Hst].
  destruct (heap_tracks_lookup _ _ _ Hst Hj) as (j0 & Hj0 & Heq).
  destruct Hst as [Hlen Htr]. split; simpl.
  - rewrite length_insert; exact Hlen.
  - intros ref' j0' Hf. destruct (decide (ref = ref')) as [<-|Hne].
    + right. rewrite list_lookup_insert_eq
        by (eapply lookup_lt_Some; exact Hj).
      rewrite Heq. congruence.
    + rewrite list_lookup_insert_ne by exact Hne. exact (Htr _ _ Hf).
Qed.

Lemma request_heap (pid : string) (st : ReapState) :
  heap (request_cleanup P pid st) = heap st.
Proof. unfold request_cleanup; destruct (from_id P pid); reflexivity. Qed.

Lemma request_store (pid : string) (st : ReapState) :
  store (request_cleanup P pid st) = store st.
Proof. unfold request_cleanup; destruct (from_id P pid); reflexivity. Qed.

Lemma request_heap_tracks (pid : string) (st : ReapState) :
  heap_tracks fetched st -> heap_tracks fetched (request_cleanup P pid st).
Proof. unfold heap_tracks; rewrite request_heap; trivial. Qed.

Lemma step_heap_tracks (st : ReapState) (pline : Pline) :
  heap_tracks fetched st -> heap_tracks fetched (step st pline).
Proof.
  intros Hst. unfold clean_pipeline.
  destruct (judged_terminable ms pline); [| exact Hst].
  apply request_heap_tracks.
  destruct (m !! pipelineId pline); [apply mark_heap_tracks |]; exact Hst.
Qed.

Lemma loop_heap_tracks (plines : list Pline) (st : ReapState) :
  heap_tracks fetched st -> heap_tracks fetched (foldl step st plines).
Proof.
  revert st; induction plines as [|pl rest IH]; intros st Hst; simpl;
    [exact Hst | apply IH, step_heap_tracks, Hst].
Qed.

(** The trace grows by exactly the calls of the pipeline. *)
Lemma step_trace (st : ReapState) (pline : Pline) :
  heap_tracks fetched st ->
  trace (step st pline) = trace st ++ calls_for P ms m fetched pline.
Proof.
  intros Hst. unfold clean_pipeline, calls_for.
  destruct (judged_terminable ms pline); [| symmetry; apply app_nil_r].
  destruct (m !! pipelineId pline) as [ref|] eqn:Hm; simpl.
  - unfold mark_cleaned_up.
    destruct (heap st !! ref) as [j|] eqn:Hj.
    + destruct (heap_tracks_lookup _ _ _ Hst Hj) as (j0 & Hj0 & Heq).
      rewrite Hj0, Heq. unfold request_cleanup.
      destruct (from_id P (pipelineId pline)); simpl;
        [rewrite <- app_assoc | ]; reflexivity.
    + assert (Hnone : fetched !! ref = None).
      { apply lookup_ge_None. destruct Hst as [<- _].
        apply lookup_ge_None; exact Hj. }
      rewrite Hnone. unfold request_cleanup.
      destruct (from_id P (pipelineId pline)); simpl;
        [| rewrite app_nil_r]; reflexivity.
  - unfold request_cleanup.
    destruct (from_id P (pipelineId pline)); simpl;
      [| rewrite app_nil_r]; reflexivity.
Qed.

Lemma loop_trace (plines : list Pline) (st : ReapState) :
  heap_tracks fetched st ->
  trace (foldl step st plines)
  = trace st ++ (plines ≫= calls_for P ms m fetched).
Proof.
  revert st; induction plines as [|pl rest IH]; intros st Hst; simpl.
  - symmetry; apply app_nil_r.
  - rewrite IH by (apply step_heap_tracks, Hst).
    rewrite step_trace by exact Hst. rewrite <- app_assoc. reflexivity.
Qed.

(** [num_cleaned] counts the terminable pipelines that were resolved. *)
Lemma step_num_cleaned (st : ReapState) (pline : Pline) :
  num_cleaned (step st pline)
  = num_cleaned st
    + (if judged_terminable ms pline && resolved P pline then 1 else 0).
Proof.
  unfold clean_pipeline, resolved, request_cleanup.
  destruct (judged_terminable ms pline); simpl; [| lia].
  destruct (from_id P (pipelineId pline)); simpl;
    destruct (m !! pipelineId pline) as [ref|]; simpl;
    unfold mark_cleaned_up; try destruct (heap st !! ref); simpl; lia.
Qed.

Lemma loop_num_cleaned (plines : list Pline) (st : ReapState) :
  num_cleaned (foldl step st plines)
  = num_cleaned st
    + Z.of_nat (length (filter
        (fun pl => judged_terminable ms pl && resolved P pl) plines)).
Proof.
  revert st; induction plines as [|pl rest IH]; intros st; simpl; [lia |].
  rewrite IH, step_num_cleaned.
  destruct (judged_terminable ms pl && resolved P pl) eqn:Hc.
  - rewrite filter_cons_True by (rewrite Hc; exact I). simpl length. lia.
  - rewrite filter_cons_False by (rewrite Hc; intros []). lia.
Qed.

(** *** The heap and the datastore *)

Lemma mark_keeps_marked (st : ReapState) (ref ref' : nat) (j : JobModel) :
  heap st !! ref' = Some j -> has_been_cleaned_up j = true ->
  heap (mark_cleaned_up ref st) !! ref' = Some j.
Proof.
  intros Hj Hc. unfold mark_cleaned_up.
  destruct (heap st !! ref) as [j1|] eqn:Hj1; [simpl | exact Hj].
  destruct (decide (ref = ref')) as [->|Hne].
  - rewrite list_lookup_insert_eq by (eapply lookup_lt_Some; exact Hj).
    rewrite Hj in Hj1; injection Hj1 as <-.
    rewrite set_cleaned_up_marked by exact Hc; reflexivity.
  - rewrite list_lookup_insert_ne by exact Hne; exact Hj.
Qed.

Lemma step_keeps_marked (st : ReapState) (pline : Pline) (ref : nat)
    (j : JobModel) :
  heap st !! ref = Some j -> has_been_cleaned_up j = true ->
  heap (step st pline) !! ref = Some j.
Proof.
  intros Hj Hc. unfold clean_pipeline.
  destruct (judged_terminable ms pline); [| exact Hj].
  rewrite request_heap.
  destruct (m !! pipelineId pline);
    [apply mark_keeps_marked; assumption | exact Hj].
Qed.

Lemma loop_keeps_marked (plines : list Pline) (st : ReapState) (ref : nat)
    (j : JobModel) :
  heap st !! ref = Some j -> has_been_cleaned_up j = true ->
  heap (foldl step st plines) !! ref = Some j.
Proof.
  revert st; induction plines as [|pl rest IH]; intros st Hj Hc; simpl;
    [exact Hj | apply IH; [apply step_keeps_marked |]; assumption].
Qed.

Lemma mark_keeps_cleaned_row (st : ReapState) (ref : nat) (k : string) :
  cleaned_row k (store st) -> cleaned_row k (store (mark_cleaned_up ref st)).
Proof.
  intros Hrow. unfold mark_cleaned_up.
  destruct (heap st !! ref) as [j|]; [simpl | exact Hrow].
  apply put_keeps_cleaned; [reflexivity | exact Hrow].
Qed.

Lemma step_keeps_cleaned_row (st : ReapState) (pline : Pline) (k : string) :
  cleaned_row k (store st) -> cleaned_row k (store (step st pline)).
Proof.
  intros Hrow. unfold clean_pipeline.
  destruct (judged_terminable ms pline); [| exact Hrow].
  rewrite request_store.
  destruct (m !! pipelineId pline);
    [apply mark_keeps_cleaned_row |]; exact Hrow.
Qed.

Lemma loop_keeps_cleaned_row (plines : list Pline) (st : ReapState)
    (k : string) :
  cleaned_row k (store st) -> cleaned_row k (store (foldl step st plines)).
Proof.
  revert st; induction plines as [|pl rest IH]; intros st Hrow; simpl;
    [exact Hrow | apply IH, step_keeps_cleaned_row, Hrow].
Qed.

Lemma step_NoDup (st : ReapState) (pline : Pline) :
  NoDup (entity_key <$> store st) ->
  NoDup (entity_key <$> store (step st pline)).
Proof.
  intros Hnd. unfold clean_pipeline.
  destruct (judged_terminable ms pline); [| exact Hnd].
  rewrite request_store.
  destruct (m !! pipelineId pline) as [ref|]; [| exact Hnd].
  unfold mark_cleaned_up.
  destruct (heap st !! ref); [simpl; apply put_NoDup |]; exact Hnd.
Qed.

Lemma loop_NoDup (plines : list Pline) (st : ReapState) :
  NoDup (entity_key <$> store st) ->
  NoDup (entity_key <$> store (foldl step st plines)).
Proof.
  revert st; induction plines as [|pl rest IH]; intros st Hnd; simpl;
    [exact Hnd | apply IH, step_NoDup, Hnd].
Qed.

(** The pass over one terminable pipeline marks the instance that the
    mapping holds for it and writes it to the datastore. *)
Lemma step_marks (st : ReapState) (pline : Pline) (ref : nat)
    (j0 : JobModel) :
  heap_tracks fetched st ->
  judged_terminable ms pline = true ->
  m !! pipelineId pline = Some ref -> fetched !! ref = Some j0 ->
  heap (step st pline) !! ref = Some (set_cleaned_up j0)
  /\ cleaned_row (entity_key j0) (store (step st pline)).
Proof.
  intros [Hlen Htr] Hjt Hm Hf. unfold clean_pipeline.
  rewrite Hjt, Hm, request_heap, request_store. unfold mark_cleaned_up.
  assert (Hset : exists j, heap st !! ref = Some j
                           /\ set_cleaned_up j = set_cleaned_up j0).
  { destruct (Htr _ _ Hf) as [H0|H0]; eexists; (split; [exact H0 |]);
      reflexivity. }
  destruct Hset as (j & Hj & Heq). rewrite Hj; simpl. split.
  - rewrite list_lookup_insert_eq by (eapply lookup_lt_Some; exact Hj).
    rewrite Heq; reflexivity.
  - exists (set_cleaned_up j). split; [apply put_stores |].
    rewrite Heq; split; reflexivity.
Qed.

Lemma loop_marks (plines : list Pline) (st : ReapState) (pline : Pline)
    (ref : nat) (j0 : JobModel) :
  heap_tracks fetched st -> pline ∈ plines ->
  judged_terminable ms pline = true ->
  m !! pipelineId pline = Some ref -> fetched !! ref = Some j0 ->
  heap (foldl step st plines) !! ref = Some (set_cleaned_up j0)
  /\ cleaned_row (entity_key j0) (store (foldl step st plines)).
Proof.
  revert st; induction plines as [|pl rest IH]; intros st Hst Hin Hjt Hm Hf;
    [inversion Hin |].
  simpl. apply elem_of_cons in Hin as [<-|Hin].
  - destruct (step_marks st pline ref j0 Hst Hjt Hm Hf) as [Hh Hs]. split.
    + apply loop_keeps_marked; [exact Hh | reflexivity].
    + apply loop_keeps_cleaned_row; exact Hs.
  - apply IH; try assumption. apply step_heap_tracks; exact Hst.
Qed.
End Loop.

(** ** The mapping from pipeline ids to job instances *)

Lemma collect_pipeline_ids_lookup (ms : Z) (fetched : list JobModel) :
  forall (ref : nat) (acc : gmap string nat) (pid : string) (r : nat),
    collect_pipeline_ids ms ref fetched acc !! pid = Some r ->
    acc !! pid = Some r
    \/ exists j, (ref <= r)%nat /\ fetched !! (r - ref)%nat = Some j
                 /\ time_started_msec j < ms
                 /\ has_been_cleaned_up j = false
                 /\ metadata j !! "root_pipeline_id" = Some pid.
Proof.
  induction fetched as [|job rest IH]; simpl; intros ref acc pid r Hr;
    [left; exact Hr |].
  apply IH in Hr as [Hacc | (j & Hle & Hj & Hrest)].
  - destruct (bool_decide (time_started_msec job < ms)
              && negb (has_been_cleaned_up job)) eqn:Hc;
      [| left; exact Hacc].
    destruct (metadata job !! "root_pipeline_id") as [pid'|] eqn:Hmd;
      [| left; exact Hacc].
    destruct (decide (pid' = pid)) as [->|Hne].
    + rewrite lookup_insert_eq in Hacc; injection Hacc as <-.
      apply andb_prop in Hc as [Ht Hn]. apply bool_decide_eq_true in Ht.
      apply negb_true_iff in Hn.
      right; exists job. rewrite Nat.sub_diag. auto.
    + rewrite lookup_insert_ne in Hacc by exact Hne. left; exact Hacc.
  - right; exists j. split; [lia |]. split; [| exact Hrest].
    replace (r - ref)%nat with (S (r - S ref)) by lia. exact Hj.
Qed.

Lemma mapping_lookup (P : Platform) (recency_msec : Z) (rows : list JobModel)
    (pid : string) (ref : nat) :
  pipeline_id_to_job_instance P recency_msec rows !! pid = Some ref ->
  exists j, job_instances P recency_msec rows !! ref = Some j
            /\ time_started_msec j < max_start_time_msec P recency_msec
            /\ has_been_cleaned_up j = false
            /\ metadata j !! "root_pipeline_id" = Some pid.
Proof.
  unfold pipeline_id_to_job_instance. intros Hm.
  apply collect_pipeline_ids_lookup in Hm as [Hempty | (j & _ & Hj & Hrest)].
  - rewrite lookup_empty in Hempty; discriminate.
  - rewrite Nat.sub_0_r in Hj. exists j; auto.
Qed.

(** ** One whole pass *)

Section Pass.
Variable P : Platform.
Variable recency_msec : Z.
Variable rows : list JobModel.

Abbreviation ms := (max_start_time_msec P recency_msec).
Abbreviation m := (pipeline_id_to_job_instance P recency_msec rows).
Abbreviation fetched := (job_instances P recency_msec rows).
Abbreviation looped := (clean_pipelines P recency_msec rows).
Abbreviation pass := (_clean_mapreduce P recency_msec rows).

Lemma initial_heap_tracks :
  heap_tracks fetched
    {| heap := fetched; store := rows; trace := []; num_cleaned := 0 |}.
Proof. split; [reflexivity | intros ref j0 Hj; left; exact Hj]. Qed.

Lemma pass_heap : heap pass = heap looped.
Proof.
  unfold _clean_mapreduce, kick_off_cleanup_job.
  destruct (do_unfinished_jobs_exist P _ _); reflexivity.
Qed.

Lemma pass_store : store pass = store looped.
Proof.
  unfold _clean_mapreduce, kick_off_cleanup_job.
  destruct (do_unfinished_jobs_exist P _ _); reflexivity.
Qed.

Lemma looped_trace :
  trace looped = get_root_list P ≫= calls_for P ms m fetched.
Proof.
  unfold clean_pipelines.
  rewrite (loop_trace P ms m fetched) by exact initial_heap_tracks.
  reflexivity.
Qed.

Lemma looped_num_cleaned :
  num_cleaned looped
  = Z.of_nat (length (filter
      (fun pl => judged_terminable ms pl && resolved P pl)
      (get_root_list P))).
Proof. unfold clean_pipelines. rewrite loop_num_cleaned. reflexivity. Qed.

(** The trace of a pass: the calls of the loop, the count, and the
    outcome of the single-flight guard. *)
Lemma pass_trace :
  trace pass
  = (get_root_list P ≫= calls_for P ms m fetched)
    ++ [Warning (pretty (num_cleaned looped) +:+ " MR jobs cleaned up.")]
    ++ (if do_unfinished_jobs_exist P (store pass) "_JobCleanupManager"
        then [Warning "A previous cleanup job is still running."]
        else [Enqueue "_JobCleanupManager"
                {[ MAPPER_PARAM_MAX_START_TIME_MSEC := ms ]};
              Warning "Deletion jobs for auxiliary entities kicked off."]).
Proof.
  rewrite pass_store, <- looped_trace.
  unfold _clean_mapreduce, kick_off_cleanup_job. simpl store.
  destruct (do_unfinished_jobs_exist P _ _); simpl;
    rewrite <- ?app_assoc; reflexivity.
Qed.

End Pass.

(** The calls of the loop, by kind. *)

Lemma enqueue_calls_calls_for (P : Platform) (ms : Z) (m : gmap string nat)
    (fetched : list JobModel) (plines : list Pline) :
  enqueue_calls (plines ≫= calls_for P ms m fetched) = [].
Proof.
  induction plines as [|pl rest IH]; [reflexivity |].
  rewrite bind_cons. unfold enqueue_calls in *. rewrite omap_app, IH, app_nil_r.
  unfold calls_for. destruct (judged_terminable ms pl); [| reflexivity].
  destruct (m !! pipelineId pl ≫= _); destruct (from_id P (pipelineId pl));
    reflexivity.
Qed.

Lemma put_in_calls_for (P : Platform) (ms : Z) (m : gmap string nat)
    (fetched : list JobModel) (pline : Pline) (j : JobModel) :
  Put j ∈ calls_for P ms m fetched pline ->
  judged_terminable ms pline = true
  /\ exists ref j0, m !! pipelineId pline = Some ref
                    /\ fetched !! ref = Some j0 /\ j = set_cleaned_up j0.
Proof.
  unfold calls_for.
  destruct (judged_terminable ms pline); [| intros Hin; inversion Hin].
  intros [Hin|Hin]%elem_of_app.
  - split; [reflexivity |].
    destruct (m !! pipelineId pline) as [ref|]; simpl in Hin;
      [| inversion Hin].
    destruct (fetched !! ref) as [j0|] eqn:Hj0; [| inversion Hin].
    apply list_elem_of_singleton in Hin. injection Hin as ->.
    exists ref, j0; auto.
  - destruct (from_id P (pipelineId pline)); [| inversion Hin].
    apply list_elem_of_singleton in Hin. discriminate.
Qed.

Lemma cleanup_in_calls_for (P : Platform) (ms : Z) (m : gmap string nat)
    (fetched : list JobModel) (pline : Pline) (p : Pipeline) :
  Cleanup p ∈ calls_for P ms m fetched pline <->
  judged_terminable ms pline = true /\ from_id P (pipelineId pline) = Some p.
Proof.
  unfold calls_for. split.
  - destruct (judged_terminable ms pline); [| intros Hin; inversion Hin].
    intros [Hin|Hin]%elem_of_app.
    + destruct (m !! pipelineId pline ≫= _); [| inversion Hin].
      apply list_elem_of_singleton in Hin. discriminate.
    + destruct (from_id P (pipelineId pline)); [| inversion Hin].
      apply list_elem_of_singleton in Hin. injection Hin as ->. auto.
  - intros [-> ->]. apply elem_of_app; right. left.
Qed.

Section PassCalls.
Variable P : Platform.
Variable recency_msec : Z.
Variable rows : list JobModel.

Abbreviation ms := (max_start_time_msec P recency_msec).
Abbreviation m := (pipeline_id_to_job_instance P recency_msec rows).
Abbreviation fetched := (job_instances P recency_msec rows).
Abbreviation pass := (_clean_mapreduce P recency_msec rows).

Lemma pass_num_cleaned :
  num_cleaned pass
  = Z.of_nat (length (filter
      (fun pl => judged_terminable ms pl && resolved P pl)
      (get_root_list P))).
Proof.
  rewrite <- (looped_num_cleaned P recency_msec rows).
  unfold _clean_mapreduce, kick_off_cleanup_job.
  destruct (do_unfinished_jobs_exist P _ _); reflexivity.
Qed.

(** Every datastore write of a pass comes from a terminable pipeline
    and writes the marked copy of the instance mapped to it. *)
Lemma put_in_pass (j : JobModel) :
  Put j ∈ trace pass ->
  exists pline ref j0,
    pline ∈ get_root_list P /\ judged_terminable ms pline = true
    /\ m !! pipelineId pline = Some ref /\ fetched !! ref = Some j0
    /\ j = set_cleaned_up j0.
Proof.
  rewrite pass_trace.
  intros [Hin|Hin]%elem_of_app.
  - apply list_elem_of_bind in Hin as (pline & Hc & Hpl).
    apply put_in_calls_for in Hc as (Hjt & ref & j0 & Hm & Hf & ->).
    exists pline, ref, j0; auto.
  - exfalso. apply elem_of_app in Hin as [Hin|Hin].
    + apply list_elem_of_singleton in Hin; discriminate.
    + destruct (do_unfinished_jobs_exist P _ _);
        repeat (apply elem_of_cons in Hin as [Hin|Hin];
                [discriminate |]); inversion Hin.
Qed.

Lemma cleanup_in_pass (p : Pipeline) :
  Cleanup p ∈ trace pass <->
  exists pline, pline ∈ get_root_list P
                /\ judged_terminable ms pline = true
                /\ from_id P (pipelineId pline) = Some p.
Proof.
  rewrite pass_trace. split.
  - intros [Hin|Hin]%elem_of_app.
    + apply list_elem_of_bind in Hin as (pline & Hc & Hpl).
      apply cleanup_in_calls_for in Hc as [Hjt Hp]. exists pline; auto.
    + exfalso. apply elem_of_app in Hin as [Hin|Hin].
      * apply list_elem_of_singleton in Hin; discriminate.
      * destruct (do_unfinished_jobs_exist P _ _);
          repeat (apply elem_of_cons in Hin as [Hin|Hin];
                  [discriminate |]); inversion Hin.
  - intros (pline & Hpl & Hjt & Hp). apply elem_of_app; left.
    apply list_elem_of_bind. exists pline; split; [| exact Hpl].
    apply cleanup_in_calls_for; auto.
Qed.

(** What a pass does for a pipeline that it judges terminable. *)
Lemma terminable_pipeline_effects (pline : Pline) :
  pline ∈ get_root_list P ->
  judged_terminable ms pline = true ->
  (forall ref, m !! pipelineId pline = Some ref ->
     exists j0, fetched !! ref = Some j0
                /\ has_been_cleaned_up j0 = false
                /\ heap pass !! ref = Some (set_cleaned_up j0)
                /\ Put (set_cleaned_up j0) ∈ trace pass
                /\ cleaned_row (entity_key j0) (store pass))
  /\ (forall p, from_id P (pipelineId pline) = Some p ->
        Cleanup p ∈ trace pass).
Proof.
  intros Hpl Hjt. split.
  - intros ref Hm.
    destruct (mapping_lookup _ _ _ _ _ Hm) as (j0 & Hf & _ & Hc & _).
    exists j0. split; [exact Hf |]. split; [exact Hc |].
    rewrite pass_heap, pass_store. unfold clean_pipelines.
    destruct (loop_marks P ms m fetched (get_root_list P) _ pline ref j0
                (initial_heap_tracks P recency_msec rows) Hpl Hjt Hm Hf)
      as [Hh Hs].
    split; [exact Hh |]. split; [| exact Hs].
    rewrite pass_trace. apply elem_of_app; left.
    apply list_elem_of_bind. exists pline; split; [| exact Hpl].
    unfold calls_for. rewrite Hjt, Hm. simpl. rewrite Hf.
    apply elem_of_app; left; left.
  - intros p Hp. apply cleanup_in_pass. exists pline; auto.
Qed.
End PassCalls.

(** * The claims about the reaper *)

(** C1, as stated, fails on the code: a pipeline whose status is 'done'
    but which reports a start time that is not older than
    [now - minAgeMsec] is left alone by the pass (first run below: no
    datastore write, no cleanup call, the correlated record stays
    unmarked); and a 'done' pipeline without a start time whose id
    [Pipeline.from_id] does not resolve gets no cleanup call (second
    run). *)
Lemma done_pipeline_with_recent_start_is_kept :
  (job_definitely_terminated Examples.done_recent_start = true
   /\ pipeline_id_to_job_instance
        (Examples.platform [Examples.done_recent_start] true false)
        MAX_MAPREDUCE_METADATA_RETENTION_MSECS Examples.rows !! "p1"
      = Some 0%nat
   /\ put_calls (trace (Examples.run [Examples.done_recent_start]
                          true false Examples.rows)) = []
   /\ cleanup_calls (trace (Examples.run [Examples.done_recent_start]
                              true false Examples.rows)) = []
   /\ store (Examples.run [Examples.done_recent_start]
               true false Examples.rows) = Examples.rows)
  /\ (job_definitely_terminated Examples.done_without_start = true
      /\ cleanup_calls (trace (Examples.run [Examples.done_without_start]
                                 false false Examples.rows)) = []).
Proof. vm_compute. repeat split; reflexivity. Qed.

(** C1 (amended): for every root pipeline whose status is 'done' or
    'aborted' or whose current attempt count exceeds its max attempt
    count, and which reports no start time or a start time older than
    [now - minAgeMsec], one pass marks the job instance that the
    pipeline-to-job mapping holds for it (the instance was unmarked, is
    marked on the heap, is written once more to the datastore, which then
    holds a cleaned-up row under its key), and requests the cleanup of
    the pipeline object when [Pipeline.from_id] resolves its id. *)
Theorem terminated_pipeline_is_reaped (P : Platform) (recency_msec : Z)
    (rows : list JobModel) (pline : Pline) :
  pline ∈ get_root_list P ->
  job_definitely_terminated pline = true ->
  (forall t, startTimeMs pline = Some t ->
             t < get_current_time_in_millisecs P - recency_msec) ->
  (forall ref,
     pipeline_id_to_job_instance P recency_msec rows !! pipelineId pline
     = Some ref ->
     exists j0, job_instances P recency_msec rows !! ref = Some j0
                /\ has_been_cleaned_up j0 = false
                /\ heap (_clean_mapreduce P recency_msec rows) !! ref
                   = Some (set_cleaned_up j0)
                /\ Put (set_cleaned_up j0)
                   ∈ trace (_clean_mapreduce P recency_msec rows)
                /\ cleaned_row (entity_key j0)
                     (store (_clean_mapreduce P recency_msec rows)))
  /\ (forall p, from_id P (pipelineId pline) = Some p ->
        Cleanup p ∈ trace (_clean_mapreduce P recency_msec rows)).
Proof.
  intros Hpl Hterm Hstart.
  apply terminable_pipeline_effects; [exact Hpl |].
  unfold judged_terminable, job_started_too_long_ago, have_start_time.
  destruct (startTimeMs pline) as [t|] eqn:Ht.
  - rewrite bool_decide_eq_true_2; [reflexivity |].
    apply Hstart; reflexivity.
  - rewrite Hterm; reflexivity.
Qed.

Lemma terminated_pipeline_is_reaped_witness :
  job_definitely_terminated Examples.exhausted_without_start = true
  /\ startTimeMs Examples.exhausted_without_start = None
  /\ heap (Examples.run [Examples.exhausted_without_start] true false
             Examples.rows) !! 0%nat
     = Some (set_cleaned_up Examples.job1)
  /\ Put (set_cleaned_up Examples.job1)
     ∈ trace (Examples.run [Examples.exhausted_without_start] true false
                Examples.rows)
  /\ cleaned_row "job1"
       (store (Examples.run [Examples.exhausted_without_start] true false
                 Examples.rows))
  /\ Cleanup (mkPipeline "p1")
     ∈ trace (Examples.run [Examples.exhausted_without_start] true false
                Examples.rows).
Proof.
  destruct (terminated_pipeline_is_reaped
              (Examples.platform [Examples.exhausted_without_start] true false)
              MAX_MAPREDUCE_METADATA_RETENTION_MSECS Examples.rows
              Examples.exhausted_without_start)
    as [Hmark Hclean].
  - left.
  - reflexivity.
  - simpl; intros t Ht; discriminate Ht.
  - destruct (Hmark 0%nat) as (j0 & Hf & _ & Hh & Hp & Hs); [reflexivity |].
    injection Hf as <-.
    split; [reflexivity |]. split; [reflexivity |].
    split; [exact Hh |]. split; [exact Hp |]. split; [exact Hs |].
    apply Hclean. reflexivity.
Defined.

(** C5, as stated, fails on the code: a running pipeline whose start
    time is older than [now - minAgeMsec] is judged terminable and its
    correlated record is marked, but when [Pipeline.from_id] yields
    nothing for its id no cleanup is requested. *)
Lemma old_unresolved_pipeline_gets_no_cleanup :
  startTimeMs Examples.running_old_start = Some 100000000
  /\ 100000000 < Examples.now - MAX_MAPREDUCE_METADATA_RETENTION_MSECS
  /\ job_definitely_terminated Examples.running_old_start = false
  /\ put_calls (trace (Examples.run [Examples.running_old_start]
                         false false Examples.rows))
     = [set_cleaned_up Examples.job2]
  /\ cleanup_calls (trace (Examples.run [Examples.running_old_start]
                             false false Examples.rows)) = [].
Proof. vm_compute. repeat split; reflexivity. Qed.

(** C5 (amended): for every root pipeline that reports a start time
    older than [now - minAgeMsec], whatever its status and attempt
    counts, one pass marks the job instance that the pipeline-to-job
    mapping holds for it and requests the cleanup of the pipeline object
    when [Pipeline.from_id] resolves its id. *)
Theorem old_pipeline_is_reaped (P : Platform) (recency_msec : Z)
    (rows : list JobModel) (pline : Pline) (t : Z) :
  pline ∈ get_root_list P ->
  startTimeMs pline = Some t ->
  t < get_current_time_in_millisecs P - recency_msec ->
  (forall ref,
     pipeline_id_to_job_instance P recency_msec rows !! pipelineId pline
     = Some ref ->
     exists j0, job_instances P recency_msec rows !! ref = Some j0
                /\ has_been_cleaned_up j0 = false
                /\ heap (_clean_mapreduce P recency_msec rows) !! ref
                   = Some (set_cleaned_up j0)
                /\ Put (set_cleaned_up j0)
                   ∈ trace (_clean_mapreduce P recency_msec rows)
                /\ cleaned_row (entity_key j0)
                     (store (_clean_mapreduce P recency_msec rows)))
  /\ (forall p, from_id P (pipelineId pline) = Some p ->
        Cleanup p ∈ trace (_clean_mapreduce P recency_msec rows)).
Proof.
  intros Hpl Ht Hold.
  apply terminable_pipeline_effects; [exact Hpl |].
  unfold judged_terminable, job_started_too_long_ago.
  rewrite Ht, bool_decide_eq_true_2 by exact Hold. reflexivity.
Qed.

Lemma old_pipeline_is_reaped_witness :
  startTimeMs Examples.running_old_start = Some 100000000
  /\ 100000000 < Examples.now - MAX_MAPREDUCE_METADATA_RETENTION_MSECS
  /\ job_definitely_terminated Examples.running_old_start = false
  /\ heap (Examples.run [Examples.running_old_start] true false
             Examples.rows) !! 1%nat
     = Some (set_cleaned_up Examples.job2)
  /\ Put (set_cleaned_up Examples.job2)
     ∈ trace (Examples.run [Examples.running_old_start] true false
                Examples.rows)
  /\ cleaned_row "job2"
       (store (Examples.run [Examples.running_old_start] true false
                 Examples.rows))
  /\ Cleanup (mkPipeline "p2")
     ∈ trace (Examples.run [Examples.running_old_start] true false
                Examples.rows).
Proof.
  destruct (old_pipeline_is_reaped
              (Examples.platform [Examples.running_old_start] true false)
              MAX_MAPREDUCE_METADATA_RETENTION_MSECS Examples.rows
              Examples.running_old_start 100000000)
    as [Hmark Hclean].
  - left.
  - reflexivity.
  - reflexivity.
  - destruct (Hmark 1%nat) as (j0 & Hf & _ & Hh & Hp & Hs); [reflexivity |].
    injection Hf as <-.
    split; [reflexivity |]. split; [reflexivity |]. split; [reflexivity |].
    split; [exact Hh |]. split; [exact Hp |]. split; [exact Hs |].
    apply Hclean. reflexivity.
Defined.

(** C6: a root pipeline with no start time and a non-terminal status
    (not 'done', not 'aborted', current attempt not above max attempts)
    is not acted upon: the loop body leaves heap, datastore, trace and
    counter as they are, and a whole pass gives the same result as a
    pass over the root list without that pipeline. *)
Theorem untimed_unfinished_pipeline_is_skipped (P : Platform)
    (recency_msec : Z) (rows : list JobModel) (pline : Pline) :
  startTimeMs pline = None ->
  job_definitely_terminated pline = false ->
  (forall ms m st, clean_pipeline P ms m st pline = st)
  /\ (forall before after,
        get_root_list P = before ++ pline :: after ->
        _clean_mapreduce P recency_msec rows
        = _clean_mapreduce (with_root_list (before ++ after) P)
            recency_msec rows).
Proof.
  intros Hstart Hterm.
  assert (Hskip : forall ms m st, clean_pipeline P ms m st pline = st).
  { intros ms m st.
    unfold clean_pipeline, judged_terminable, job_started_too_long_ago,
      have_start_time.
    rewrite Hstart, Hterm. reflexivity. }
  split; [exact Hskip |].
  intros before after Hlist.
  assert (Hloop : clean_pipelines P recency_msec rows
                  = clean_pipelines (with_root_list (before ++ after) P)
                      recency_msec rows).
  { unfold clean_pipelines. rewrite Hlist. simpl get_root_list.
    rewrite !foldl_app. simpl foldl. rewrite Hskip. reflexivity. }
  unfold _clean_mapreduce. rewrite <- Hloop. reflexivity.
Qed.

Lemma untimed_unfinished_pipeline_is_skipped_witness :
  startTimeMs Examples.running_without_start = None
  /\ job_definitely_terminated Examples.running_without_start = false
  /\ Examples.run
       [Examples.done_without_start; Examples.running_without_start;
        Examples.running_old_start] true false Examples.rows
     = _clean_mapreduce
         (with_root_list
            [Examples.done_without_start; Examples.running_old_start]
            (Examples.platform
               [Examples.done_without_start; Examples.running_without_start;
                Examples.running_old_start] true false))
         MAX_MAPREDUCE_METADATA_RETENTION_MSECS Examples.rows.
Proof.
  split; [reflexivity |]. split; [reflexivity |].
  apply (proj2 (untimed_unfinished_pipeline_is_skipped
           (Examples.platform
              [Examples.done_without_start; Examples.running_without_start;
               Examples.running_old_start] true false)
           MAX_MAPREDUCE_METADATA_RETENTION_MSECS Examples.rows
           Examples.running_without_start eq_refl eq_refl)
           [Examples.done_without_start] [Examples.running_old_start]).
  reflexivity.
Defined.

(** C4: a pass enqueues no cleanup job when the job registry reports an
    unfinished [_JobCleanupManager] instance, and otherwise exactly one,
    whose [max_start_time_msec] parameter is [now - recency_msec], the
    value computed at the start of the pass. *)
Theorem cleanup_job_is_single_flight (P : Platform) (recency_msec : Z)
    (rows : list JobModel) :
  enqueue_calls (trace (_clean_mapreduce P recency_msec rows))
  = if do_unfinished_jobs_exist P
         (store (_clean_mapreduce P recency_msec rows)) "_JobCleanupManager"
    then []
    else [("_JobCleanupManager",
           {[ "max_start_time_msec" :=
                get_current_time_in_millisecs P - recency_msec ]})].
Proof.
  rewrite pass_trace. unfold enqueue_calls.
  rewrite omap_app. fold (enqueue_calls
    (get_root_list P ≫= calls_for P (max_start_time_msec P recency_msec)
       (pipeline_id_to_job_instance P recency_msec rows)
       (job_instances P recency_msec rows))).
  rewrite enqueue_calls_calls_for.
  destruct (do_unfinished_jobs_exist P _ _); reflexivity.
Qed.

(** C10: when a root pipeline is judged terminable but
    [Pipeline.from_id] yields nothing for its id, the pass still marks
    and writes the job instance that the mapping holds for it, while the
    loop body makes no cleanup call and leaves [num_cleaned] as it is;
    every cleanup call of a pass belongs to a terminable pipeline that
    was resolved; the logged count is the number of terminable root
    pipelines that were resolved; and that count can be smaller than the
    number of job records written in the pass. *)
Theorem unresolved_pipeline_is_marked_but_not_counted :
  (forall (P : Platform) (recency_msec : Z) (rows : list JobModel)
          (pline : Pline),
     pline ∈ get_root_list P ->
     judged_terminable (max_start_time_msec P recency_msec) pline = true ->
     from_id P (pipelineId pline) = None ->
     (forall ref,
        pipeline_id_to_job_instance P recency_msec rows !! pipelineId pline
        = Some ref ->
        exists j0, job_instances P recency_msec rows !! ref = Some j0
                   /\ heap (_clean_mapreduce P recency_msec rows) !! ref
                      = Some (set_cleaned_up j0)
                   /\ Put (set_cleaned_up j0)
                      ∈ trace (_clean_mapreduce P recency_msec rows)
                   /\ cleaned_row (entity_key j0)
                        (store (_clean_mapreduce P recency_msec rows)))
     /\ (forall ms m st,
           num_cleaned (clean_pipeline P ms m st pline) = num_cleaned st
           /\ cleanup_calls (trace (clean_pipeline P ms m st pline))
              = cleanup_calls (trace st)))
  /\ (forall (P : Platform) (recency_msec : Z) (rows : list JobModel),
        (forall p,
           Cleanup p ∈ trace (_clean_mapreduce P recency_msec rows) ->
           exists pline,
             pline ∈ get_root_list P
             /\ judged_terminable (max_start_time_msec P recency_msec) pline
                = true
             /\ from_id P (pipelineId pline) = Some p)
        /\ num_cleaned (_clean_mapreduce P recency_msec rows)
           = Z.of_nat (length (filter
               (fun pl =>
                  judged_terminable (max_start_time_msec P recency_msec) pl
                  && resolved P pl)
               (get_root_list P)))
        /\ Warning
             (pretty (num_cleaned (_clean_mapreduce P recency_msec rows))
              +:+ " MR jobs cleaned up.")
           ∈ trace (_clean_mapreduce P recency_msec rows))
  /\ (exists (P : Platform) (recency_msec : Z) (rows : list JobModel),
        num_cleaned (_clean_mapreduce P recency_msec rows)
        < Z.of_nat (length
            (put_calls (trace (_clean_mapreduce P recency_msec rows))))).
Proof.
  split; [| split].
  - intros P recency_msec rows pline Hpl Hjt Hnone. split.
    + intros ref Hm.
      destruct (terminable_pipeline_effects P recency_msec rows pline Hpl Hjt)
        as [Hmark _].
      destruct (Hmark ref Hm) as (j0 & Hf & _ & Hh & Hp & Hs).
      exists j0; auto.
    + intros ms m st. unfold clean_pipeline.
      destruct (judged_terminable ms pline); [| split; reflexivity].
      unfold request_cleanup. rewrite Hnone.
      destruct (m !! pipelineId pline) as [ref|]; [| split; reflexivity].
      unfold mark_cleaned_up.
      destruct (heap st !! ref); [simpl | split; reflexivity].
      split; [reflexivity |].
      unfold cleanup_calls. rewrite omap_app. simpl. apply app_nil_r.
  - intros P recency_msec rows. split; [| split].
    + intros p Hp. apply cleanup_in_pass in Hp. exact Hp.
    + apply pass_num_cleaned.
    + rewrite pass_trace. apply elem_of_app; right.
      apply elem_of_app; left.
      unfold _clean_mapreduce, kick_off_cleanup_job.
      destruct (do_unfinished_jobs_exist P _ _); left.
  - exists (Examples.platform [Examples.done_without_start] false false),
      MAX_MAPREDUCE_METADATA_RETENTION_MSECS, Examples.rows.
    vm_compute. reflexivity.
Qed.

Lemma unresolved_pipeline_is_marked_but_not_counted_witness :
  judged_terminable
    (Examples.now - MAX_MAPREDUCE_METADATA_RETENTION_MSECS)
    Examples.done_without_start = true
  /\ heap (Examples.run [Examples.done_without_start] false false
             Examples.rows) !! 0%nat
     = Some (set_cleaned_up Examples.job1)
  /\ Put (set_cleaned_up Examples.job1)
     ∈ trace (Examples.run [Examples.done_without_start] false false
                Examples.rows)
  /\ cleaned_row "job1"
       (store (Examples.run [Examples.done_without_start] false false
                 Examples.rows))
  /\ num_cleaned (Examples.run [Examples.done_without_start] false false
                    Examples.rows) = 0.
Proof.
  destruct (proj1 unresolved_pipeline_is_marked_but_not_counted
              (Examples.platform [Examples.done_without_start] false false)
              MAX_MAPREDUCE_METADATA_RETENTION_MSECS Examples.rows
              Examples.done_without_start)
    as [Hmark _].
  - left.
  - reflexivity.
  - reflexivity.
  - destruct (Hmark 0%nat) as (j0 & Hf & Hh & Hp & Hs); [reflexivity |].
    injection Hf as <-.
    split; [reflexivity |]. split; [exact Hh |]. split; [exact Hp |].
    split; [exact Hs | reflexivity].
Defined.

(** The spec-modelled query returns stored rows only. *)
Lemma recent_jobs_sound (plines : list Pline) (found unfinished : bool) :
  query_sound (Examples.platform plines found unfinished).
Proof.
  intros rows limit recency_msec j Hin. simpl in Hin.
  unfold Examples.recent_jobs in Hin.
  apply subseteq_take in Hin. apply list_elem_of_filter in Hin as [_ Hin].
  exact Hin.
Qed.

(** A pass never writes a record that the datastore holds as cleaned up. *)
Lemma pass_writes_unmarked_rows (P : Platform) (recency_msec : Z)
    (rows : list JobModel) (j row : JobModel) :
  NoDup (entity_key <$> rows) -> query_sound P ->
  Put j ∈ trace (_clean_mapreduce P recency_msec rows) ->
  row ∈ rows -> entity_key row = entity_key j ->
  has_been_cleaned_up row = false.
Proof.
  intros Hnd Hq Hput Hrow Hkey.
  apply put_in_pass in Hput as (pline & ref & j0 & _ & _ & Hm & Hf & ->).
  destruct (mapping_lookup _ _ _ _ _ Hm) as (j0' & Hf' & _ & Hc & _).
  rewrite Hf in Hf'; injection Hf' as <-.
  assert (Hin : j0 ∈ rows).
  { eapply Hq. eapply list_elem_of_lookup_2. exact Hf. }
  rewrite (NoDup_keys_eq rows row j0 Hnd Hrow Hin Hkey). exact Hc.
Qed.

(** C3: a record whose flag is already set never enters the
    pipeline-to-job mapping, so every record that a pass marks and
    writes was unmarked when it was fetched; a pass never writes a
    record that the datastore holds as cleaned up; and a second pass,
    run on the datastore that the first one left, writes none of the
    records that the first pass wrote. *)
Theorem cleaned_up_record_is_not_marked_again (P : Platform)
    (recency_msec : Z) (rows : list JobModel) :
  (forall pid ref,
     pipeline_id_to_job_instance P recency_msec rows !! pid = Some ref ->
     exists j, job_instances P recency_msec rows !! ref = Some j
               /\ has_been_cleaned_up j = false)
  /\ (forall j,
        Put j ∈ trace (_clean_mapreduce P recency_msec rows) ->
        exists j0, j0 ∈ job_instances P recency_msec rows
                   /\ has_been_cleaned_up j0 = false
                   /\ j = set_cleaned_up j0)
  /\ (NoDup (entity_key <$> rows) -> query_sound P ->
      forall j row,
        Put j ∈ trace (_clean_mapreduce P recency_msec rows) ->
        row ∈ rows -> entity_key row = entity_key j ->
        has_been_cleaned_up row = false)
  /\ (forall (P' : Platform) (recency_msec' : Z),
        NoDup (entity_key <$> rows) -> query_sound P' ->
        forall j1 j2,
          Put j1 ∈ trace (_clean_mapreduce P recency_msec rows) ->
          Put j2 ∈ trace (_clean_mapreduce P' recency_msec'
                            (store (_clean_mapreduce P recency_msec rows))) ->
          entity_key j1 <> entity_key j2).
Proof.
  split; [| split; [| split]].
  - intros pid ref Hm.
    destruct (mapping_lookup _ _ _ _ _ Hm) as (j & Hf & _ & Hc & _).
    exists j; auto.
  - intros j Hput.
    apply put_in_pass in Hput as (pline & ref & j0 & _ & _ & Hm & Hf & ->).
    destruct (mapping_lookup _ _ _ _ _ Hm) as (j0' & Hf' & _ & Hc & _).
    rewrite Hf in Hf'; injection Hf' as <-.
    exists j0. split; [eapply list_elem_of_lookup_2; exact Hf | auto].
  - intros Hnd Hq j row. apply pass_writes_unmarked_rows; assumption.
  - intros P' recency_msec' Hnd Hq j1 j2 Hput1 Hput2 Hkey.
    apply put_in_pass in Hput1 as (pline & ref & j0 & Hpl & Hjt & Hm & Hf & ->).
    destruct (terminable_pipeline_effects P recency_msec rows pline Hpl Hjt)
      as [Hmark _].
    destruct (Hmark ref Hm) as (j0' & Hf' & _ & _ & _ & Hrow).
    rewrite Hf in Hf'; injection Hf' as <-.
    destruct Hrow as (row & Hin & Hk & Hc).
    assert (Hnd' : NoDup (entity_key <$>
                            store (_clean_mapreduce P recency_msec rows))).
    { rewrite pass_store. unfold clean_pipelines. apply loop_NoDup. exact Hnd. }
    assert (Hfalse : has_been_cleaned_up row = false).
    { apply (pass_writes_unmarked_rows P' recency_msec'
               (store (_clean_mapreduce P recency_msec rows)) j2 row
               Hnd' Hq Hput2 Hin).
      rewrite Hk, <- Hkey. reflexivity. }
    congruence.
Qed.

Lemma cleaned_up_record_is_not_marked_again_witness :
  Put (set_cleaned_up Examples.job1)
  ∈ trace (Examples.run [Examples.done_without_start] true false
             Examples.rows)
  /\ Put (set_cleaned_up Examples.job2)
     ∈ trace (Examples.run
                [Examples.done_without_start; Examples.running_old_start]
                true false
                (store (Examples.run [Examples.done_without_start] true false
                          Examples.rows)))
  /\ has_been_cleaned_up Examples.job1 = false
  /\ entity_key (set_cleaned_up Examples.job1)
     <> entity_key (set_cleaned_up Examples.job2).
Proof.
  assert (Hnd : NoDup (entity_key <$> Examples.rows))
    by (apply (bool_decide_unpack _); vm_compute; exact I).
  assert (H1 : Put (set_cleaned_up Examples.job1)
               ∈ trace (Examples.run [Examples.done_without_start] true false
                          Examples.rows))
    by (vm_compute; left).
  assert (H2 : Put (set_cleaned_up Examples.job2)
               ∈ trace (Examples.run
                          [Examples.done_without_start;
                           Examples.running_old_start] true false
                          (store (Examples.run [Examples.done_without_start]
                                    true false Examples.rows))))
    by (vm_compute; right; left).
  destruct (cleaned_up_record_is_not_marked_again
              (Examples.platform [Examples.done_without_start] true false)
              MAX_MAPREDUCE_METADATA_RETENTION_MSECS Examples.rows)
    as (_ & _ & Hstored & Hsecond).
  split; [exact H1 |]. split; [exact H2 |]. split.
  - apply (Hstored Hnd (recent_jobs_sound _ _ _)
             (set_cleaned_up Examples.job1) Examples.job1 H1);
      [left | reflexivity].
  - apply (Hsecond
             (Examples.platform
                [Examples.done_without_start; Examples.running_old_start]
                true false)
             MAX_MAPREDUCE_METADATA_RETENTION_MSECS
             Hnd (recent_jobs_sound _ _ _) _ _ H1 H2).
Defined.

(** The two passes of C3 on the example datastore: the first writes
    [job1] and [job2]; the second, run on what the first left, writes
    nothing and only repeats the two cleanup calls. *)
Example second_pass_only_repeats_cleanup :
  put_calls (trace (Examples.run
                      [Examples.done_without_start; Examples.running_old_start]
                      true false Examples.rows))
  = [set_cleaned_up Examples.job1; set_cleaned_up Examples.job2]
  /\ put_calls
       (trace (Examples.run
                 [Examples.done_without_start; Examples.running_old_start]
                 true false
                 (store (Examples.run
                           [Examples.done_without_start;
                            Examples.running_old_start]
                           true false Examples.rows)))) = []
  /\ cleanup_calls
       (trace (Examples.run
                 [Examples.done_without_start; Examples.running_old_start]
                 true false
                 (store (Examples.run
                           [Examples.done_without_start;
                            Examples.running_old_start]
                           true false Examples.rows))))
     = [mkPipeline "p1"; mkPipeline "p2"].
Proof. vm_compute. repeat split; reflexivity. Qed.

Lemma elem_of_put_calls (tr : list Effect) (j : JobModel) :
  j ∈ put_calls tr <-> Put j ∈ tr.
Proof.
  unfold put_calls. rewrite list_elem_of_omap. split.
  - intros (e & He & Hj). destruct e; try discriminate.
    injection Hj as ->. exact He.
  - intros He. exists (Put j). split; [exact He | reflexivity].
Qed.

Lemma put_calls_calls_for_length (P : Platform) (ms : Z)
    (m : gmap string nat) (fetched : list JobModel) (pline : Pline) :
  (length (put_calls (calls_for P ms m fetched pline)) <= 1)%nat.
Proof.
  unfold calls_for. destruct (judged_terminable ms pline); [| simpl; lia].
  unfold put_calls. rewrite omap_app.
  destruct (m !! pipelineId pline ≫= _); destruct (from_id P (pipelineId pline));
    simpl; lia.
Qed.

(** X10: within one pass no record is written twice, provided the root
    list names every pipeline once and the fetched instances have
    distinct keys. *)
Lemma pass_writes_each_record_once (P : Platform) (recency_msec : Z)
    (rows : list JobModel) :
  NoDup (pipelineId <$> get_root_list P) ->
  NoDup (entity_key <$> job_instances P recency_msec rows) ->
  NoDup (entity_key
           <$> put_calls (trace (_clean_mapreduce P recency_msec rows))).
Proof.
  intros Hpl Hkeys. rewrite pass_trace. unfold put_calls.
  rewrite omap_app.
  replace (omap _ ([Warning _] ++ _)) with (@nil JobModel)
    by (destruct (do_unfinished_jobs_exist P _ _); reflexivity).
  rewrite app_nil_r.
  fold (put_calls (get_root_list P ≫= calls_for P
          (max_start_time_msec P recency_msec)
          (pipeline_id_to_job_instance P recency_msec rows)
          (job_instances P recency_msec rows))).
  induction (get_root_list P) as [|pl rest IH]; [apply NoDup_nil; exact I |].
  rewrite fmap_cons in Hpl. apply NoDup_cons in Hpl as [Hfresh Hrest].
  rewrite bind_cons. unfold put_calls in *. rewrite omap_app, fmap_app.
  apply NoDup_app. split; [| split; [| exact (IH Hrest)]].
  - pose proof (put_calls_calls_for_length P
        (max_start_time_msec P recency_msec)
        (pipeline_id_to_job_instance P recency_msec rows)
        (job_instances P recency_msec rows) pl) as Hlen.
    unfold put_calls in Hlen.
    destruct (omap _ (calls_for _ _ _ _ pl)) as [|j [|j' l]];
      simpl in Hlen; [apply NoDup_nil; exact I | apply NoDup_singleton | lia].
  - intros k (j & -> & Hj)%list_elem_of_fmap (j' & Hk & Hj')%list_elem_of_fmap.
    apply Hfresh.
    apply (proj1 (elem_of_put_calls _ _)) in Hj, Hj'.
    apply put_in_calls_for in Hj as (_ & ref & j0 & Hm & Hf & ->).
    apply list_elem_of_bind in Hj' as (pl' & Hc & Hin).
    apply put_in_calls_for in Hc as (_ & ref' & j0' & Hm' & Hf' & ->).
    destruct (mapping_lookup _ _ _ _ _ Hm) as (a & Ha & _ & _ & Hmd).
    destruct (mapping_lookup _ _ _ _ _ Hm') as (a' & Ha' & _ & _ & Hmd').
    rewrite Hf in Ha; injection Ha as <-.
    rewrite Hf' in Ha'; injection Ha' as <-.
    assert (Heq : j0 = j0').
    { eapply (NoDup_keys_eq _ j0 j0' Hkeys);
        [eapply list_elem_of_lookup_2; exact Hf
        | eapply list_elem_of_lookup_2; exact Hf'
        | exact Hk]. }
    subst j0'. rewrite Hmd in Hmd'. injection Hmd' as Hpid.
    rewrite Hpid. apply list_elem_of_fmap.
    exists pl'; split; [reflexivity | exact Hin].
Qed.

Lemma pass_writes_each_record_once_witness :
  NoDup (pipelineId
           <$> [Examples.done_without_start; Examples.running_old_start])
  /\ put_calls (trace (Examples.run
                         [Examples.done_without_start;
                          Examples.running_old_start]
                         true false Examples.rows))
     = [set_cleaned_up Examples.job1; set_cleaned_up Examples.job2]
  /\ NoDup (entity_key
              <$> put_calls
                    (trace (Examples.run
                              [Examples.done_without_start;
                               Examples.running_old_start]
                              true false Examples.rows))).
Proof.
  assert (Hpl : NoDup (pipelineId
                         <$> [Examples.done_without_start;
                              Examples.running_old_start]))
    by (apply (bool_decide_unpack _); vm_compute; exact I).
  split; [exact Hpl |]. split; [vm_compute; reflexivity |].
  apply (pass_writes_each_record_once
           (Examples.platform
              [Examples.done_without_start; Examples.running_old_start]
              true false)
           MAX_MAPREDUCE_METADATA_RETENTION_MSECS Examples.rows Hpl).
  apply (bool_decide_unpack _). vm_compute. exact I.
Defined.

(** The scenario of the spec: three fetched records, two of them with a
    root pipeline id; one pipeline 'done' without start time, one
    running with an old start time: both cleaned, both records marked,
    cleaned count 2. *)
Example spec_scenario :
  num_cleaned (Examples.run
                 [Examples.done_without_start; Examples.running_old_start]
                 true false Examples.rows) = 2
  /\ has_been_cleaned_up
       <$> store (Examples.run
                    [Examples.done_without_start; Examples.running_old_start]
                    true false Examples.rows)
     = [true; true; false].
Proof. vm_compute. split; reflexivity. Qed.

(** * The claims about the mailer *)

Lemma append_assoc (s1 s2 s3 : string) :
  (s1 +:+ s2) +:+ s3 = s1 +:+ (s2 +:+ s3).
Proof.
  induction s1 as [|c s1 IH]; [reflexivity |].
  change (String c ((s1 +:+ s2) +:+ s3) = String c (s1 +:+ (s2 +:+ s3))).
  f_equal; exact IH.
Qed.

Lemma append_empty_r (s : string) : s +:+ EmptyString = s.
Proof.
  induction s as [|c s IH]; [reflexivity |].
  change (String c (s +:+ EmptyString) = String c s). f_equal; exact IH.
Qed.

Section Mailer.
Context `{Datetime}.
Variable get_stuck_jobs : Z -> list ShardState.
Variable ADMIN_EMAIL_ADDRESS : string.

Lemma append_job_block (email_message : string) (job : ShardState) :
  JobStatusMailerHandler.append_job email_message job
  = email_message +:+ detail_block job.
Proof.
  unfold JobStatusMailerHandler.append_job, detail_block.
  rewrite !append_assoc. reflexivity.
Qed.

(** The loop appends one detail block per job, in order. *)
Lemma foldl_append_job (jobs : list ShardState) (email_message : string) :
  foldl JobStatusMailerHandler.append_job email_message jobs
  = email_message +:+ join (detail_block <$> jobs).
Proof.
  revert email_message; induction jobs as [|job rest IH];
    intros email_message.
  - symmetry; apply append_empty_r.
  - change (foldl JobStatusMailerHandler.append_job
              (JobStatusMailerHandler.append_job email_message job) rest
            = email_message
              +:+ (detail_block job +:+ join (detail_block <$> rest))).
    rewrite IH, append_job_block, append_assoc. reflexivity.
Qed.

(** A request that passes the decorator reaches the body of [get]. *)
Lemma mailer_get_authorized (self : Request) :
  is_Some (headers self !! "X-AppEngine-Cron") \/ is_super_admin self = true ->
  JobStatusMailerHandler.get get_stuck_jobs ADMIN_EMAIL_ADDRESS self
  = JobStatusMailerHandler.get_undecorated get_stuck_jobs
      ADMIN_EMAIL_ADDRESS self.
Proof.
  intros Hauth.
  unfold JobStatusMailerHandler.get, require_cron_or_superadmin.
  destruct Hauth as [[v Hv]|Hadmin].
  - rewrite Hv. reflexivity.
  - rewrite Hadmin, andb_false_r. reflexivity.
Qed.

(** A request without the cron header and without superadmin rights
    is turned away before the body of [get] runs. *)
Lemma mailer_get_unauthorized (self : Request) :
  headers self !! "X-AppEngine-Cron" = None ->
  is_super_admin self = false ->
  JobStatusMailerHandler.get get_stuck_jobs ADMIN_EMAIL_ADDRESS self
  = inl (UnauthorizedUserException
           "You do not have the credentials to access this page.").
Proof.
  intros Hcron Hadmin.
  unfold JobStatusMailerHandler.get, require_cron_or_superadmin.
  rewrite Hcron, Hadmin. reflexivity.
Qed.
End Mailer.

(** C7: every run of the stuck-job reporter makes exactly one
    alert-send call, and the handler runs the reporter for every request
    that passes the decorator.  With no stuck job the alert is the all-clear
    message, with no detail block.  With N stuck jobs the body starts
    with the total N and is followed by the detail blocks of the first
    min(N, 50) jobs and nothing else. *)
Theorem mailer_sends_one_alert `{Datetime}
    (get_stuck_jobs : Z -> list ShardState) (ADMIN_EMAIL_ADDRESS : string)
    (self : Request) :
  exists subject body blocks,
    JobStatusMailerHandler.get_undecorated get_stuck_jobs
      ADMIN_EMAIL_ADDRESS self
    = inr [SendMailToAdmin ADMIN_EMAIL_ADDRESS subject body]
    /\ JobStatusMailerHandler.get get_stuck_jobs ADMIN_EMAIL_ADDRESS self
       = (if bool_decide (headers self !! "X-AppEngine-Cron" = None)
             && negb (is_super_admin self)
          then inl (UnauthorizedUserException
                      "You do not have the credentials to access this page.")
          else inr [SendMailToAdmin ADMIN_EMAIL_ADDRESS subject body])
    /\ blocks
       = detail_block <$> take 50 (get_stuck_jobs (25 * 60 * 60 * 1000))
    /\ length blocks
       = Nat.min (length (get_stuck_jobs (25 * 60 * 60 * 1000))) 50
    /\ match get_stuck_jobs (25 * 60 * 60 * 1000) with
       | [] =>
           subject = "MapReduce status report"
           /\ body = "All MapReduce jobs are running fine."
           /\ blocks = []
       | failed_jobs =>
           subject = "MapReduce failure alert"
           /\ body
              = (pretty (length failed_jobs)
                 +:+ " jobs have failed in the past 25 hours. More information (about at most 50 jobs; to see more, please check the logs):")
                +:+ join blocks
       end.
Proof.
  unfold JobStatusMailerHandler.get_undecorated.
  change JobStatusMailerHandler.TWENTY_FIVE_HOURS_IN_MSECS
    with (25 * 60 * 60 * 1000).
  set (failed_jobs := get_stuck_jobs (25 * 60 * 60 * 1000)).
  exists (JobStatusMailerHandler.email_subject failed_jobs),
    (JobStatusMailerHandler.email_message failed_jobs),
    (detail_block <$> take 50 failed_jobs).
  split; [reflexivity |]. split; [reflexivity |]. split; [reflexivity |].
  split; [rewrite length_fmap, length_take; lia |].
  destruct failed_jobs as [|job rest] eqn:Hjobs; [auto |].
  split; [reflexivity |].
  unfold JobStatusMailerHandler.email_message.
  change JobStatusMailerHandler.MAX_JOBS_TO_REPORT_ON with 50%nat.
  rewrite foldl_append_job. f_equal.
Qed.

(** The two scenarios of the spec, run on the code: no stuck job, and
    60 stuck jobs with the cap of 50. *)
Example mailer_scenarios :
  Examples.mail 0
  = inr [SendMailToAdmin "admin@example.com" "MapReduce status report"
           "All MapReduce jobs are running fine."]
  /\ (exists body,
        Examples.mail 60
        = inr [SendMailToAdmin "admin@example.com" "MapReduce failure alert"
                 body]
        /\ String.prefix "60 jobs have failed in the past 25 hours." body
           = true
        /\ Examples.count_blocks body = 50%nat).
Proof.
  split; [reflexivity |].
  eexists. split; [reflexivity |]. split; vm_compute; reflexivity.
Qed.

(** The decorator on the mailer endpoint: cron and superadmin requests
    reach the reporter, any other request is turned away. *)
Example mailer_guard :
  JobStatusMailerHandler.get (fun _ => Examples.stuck_jobs 0)
    "admin@example.com" Examples.cron_request = Examples.mail 0
  /\ JobStatusMailerHandler.get (fun _ => Examples.stuck_jobs 0)
       "admin@example.com" Examples.superadmin_request = Examples.mail 0
  /\ JobStatusMailerHandler.get (fun _ => Examples.stuck_jobs 0)
       "admin@example.com" Examples.anonymous_request
     = inl (UnauthorizedUserException
              "You do not have the credentials to access this page.").
Proof. repeat split; vm_compute; reflexivity. Qed.

(** * The claims about the trigger surface *)

(** C2 on the code: the reaper endpoint carries no decorator.  A request
    with no [X-AppEngine-Cron] header and without superadmin rights is
    turned away by the mailer endpoint, but the cleanup endpoint runs
    the whole pass for it: it writes a job record and calls the
    pipeline cleanup. *)
Theorem cleanup_endpoint_is_unguarded :
  headers Examples.anonymous_request !! "X-AppEngine-Cron" = None
  /\ is_super_admin Examples.anonymous_request = false
  /\ JobStatusMailerHandler.get (fun _ => Examples.stuck_jobs 1)
       "admin@example.com" Examples.anonymous_request
     = inl (UnauthorizedUserException
              "You do not have the credentials to access this page.")
  /\ CronMapreduceCleanupHandler.get
       (Examples.platform [Examples.done_without_start] true false)
       Examples.rows Examples.anonymous_request
     = inr (Examples.run [Examples.done_without_start] true false
              Examples.rows)
  /\ put_calls (trace (Examples.run [Examples.done_without_start] true false
                         Examples.rows))
     = [set_cleaned_up Examples.job1]
  /\ cleanup_calls (trace (Examples.run [Examples.done_without_start]
                             true false Examples.rows))
     = [mkPipeline "p1"].
Proof. repeat split; vm_compute; reflexivity. Qed.

(** The cleanup endpoint never raises, whoever calls it. *)
Lemma cleanup_get_never_rejects (P : Platform) (rows : list JobModel)
    (self : Request) :
  CronMapreduceCleanupHandler.get P rows self
  = inr (_clean_mapreduce P MAX_MAPREDUCE_METADATA_RETENTION_MSECS rows).
Proof. reflexivity. Qed.

(** * The claims about the cleanup job *)

Section Mapper.
Context `{Datetime}.
Variable get_mapper_param : string -> Z.

Abbreviation threshold := (get_mapper_param "max_start_time_msec").

Lemma map_run_state (mr : MapreduceState) :
  _JobCleanupManager.map get_mapper_param (IsMapreduceState mr)
  = if bool_decide (mr_result_status mr = Some "success")
       && bool_decide (get_time_in_millisecs (start_time mr) < threshold)
    then [_JobCleanupManager.Delete (IsMapreduceState mr);
          _JobCleanupManager.Yield "mr_state_deleted" 1]
    else [_JobCleanupManager.Yield "mr_state_remaining" 1].
Proof. unfold _JobCleanupManager.map. apply app_nil_r. Qed.

Lemma map_shard_state (shard : ShardState) :
  _JobCleanupManager.map get_mapper_param (IsShardState shard)
  = if bool_decide (result_status shard = Some "success")
       && bool_decide (get_time_in_millisecs (update_time shard) < threshold)
    then [_JobCleanupManager.Delete (IsShardState shard);
          _JobCleanupManager.Yield "shard_state_deleted" 1]
    else [_JobCleanupManager.Yield "mr_state_remaining" 1].
Proof. reflexivity. Qed.

(** A successful shard whose update time precedes the threshold is
    deleted and tallied under the shard key. *)
Lemma old_successful_shard_is_deleted (shard : ShardState) :
  result_status shard = Some "success" ->
  get_time_in_millisecs (update_time shard) < threshold ->
  _JobCleanupManager.map get_mapper_param (IsShardState shard)
  = [_JobCleanupManager.Delete (IsShardState shard);
     _JobCleanupManager.Yield "shard_state_deleted" 1].
Proof.
  intros Hs Ht. rewrite map_shard_state.
  rewrite !bool_decide_eq_true_2 by assumption. reflexivity.
Qed.

(** Any other shard is kept, and tallied under the key of the runs. *)
Lemma kept_shard_is_tallied_as_run (shard : ShardState) :
  ~ (result_status shard = Some "success"
     /\ get_time_in_millisecs (update_time shard) < threshold) ->
  _JobCleanupManager.map get_mapper_param (IsShardState shard)
  = [_JobCleanupManager.Yield "mr_state_remaining" 1].
Proof.
  intros Hnot. rewrite map_shard_state.
  destruct (bool_decide _ && bool_decide _) eqn:Hc; [| reflexivity].
  exfalso; apply Hnot. apply andb_prop in Hc as [Hs Ht].
  apply bool_decide_eq_true in Hs, Ht. auto.
Qed.
End Mapper.

(** C8: for a run-level record, the map step deletes the record and
    yields exactly one [('mr_state_deleted', 1)] if and only if its
    result status is 'success' and its start time precedes the
    [max_start_time_msec] parameter; otherwise it deletes nothing and
    yields exactly one [('mr_state_remaining', 1)]. *)
Theorem run_state_is_deleted_iff_successful_and_old `{Datetime}
    (get_mapper_param : string -> Z) (mr : MapreduceState) :
  (mr_result_status mr = Some "success"
   /\ get_time_in_millisecs (start_time mr)
      < get_mapper_param "max_start_time_msec" ->
   _JobCleanupManager.map get_mapper_param (IsMapreduceState mr)
   = [_JobCleanupManager.Delete (IsMapreduceState mr);
      _JobCleanupManager.Yield "mr_state_deleted" 1])
  /\ (~ (mr_result_status mr = Some "success"
         /\ get_time_in_millisecs (start_time mr)
            < get_mapper_param "max_start_time_msec") ->
      _JobCleanupManager.map get_mapper_param (IsMapreduceState mr)
      = [_JobCleanupManager.Yield "mr_state_remaining" 1])
  /\ (_JobCleanupManager.Delete (IsMapreduceState mr)
      ∈ _JobCleanupManager.map get_mapper_param (IsMapreduceState mr)
      <-> mr_result_status mr = Some "success"
          /\ get_time_in_millisecs (start_time mr)
             < get_mapper_param "max_start_time_msec").
Proof.
  rewrite map_run_state.
  destruct (bool_decide (mr_result_status mr = Some "success")
            && bool_decide (get_time_in_millisecs (start_time mr)
                            < get_mapper_param "max_start_time_msec"))
    eqn:Hc.
  - apply andb_prop in Hc as [Hs Ht].
    apply bool_decide_eq_true in Hs, Ht.
    split; [reflexivity |]. split; [intros Hnot; exfalso; auto |].
    split; [auto | intros _; left].
  - assert (Hnot : ~ (mr_result_status mr = Some "success"
                      /\ get_time_in_millisecs (start_time mr)
                         < get_mapper_param "max_start_time_msec")).
    { intros [Hs Ht]. apply andb_false_iff in Hc as [Hc|Hc];
        apply bool_decide_eq_false in Hc; auto. }
    split; [intros Hyes; exfalso; auto |]. split; [reflexivity |].
    split; [| intros Hyes; exfalso; auto].
    intros Hin. apply list_elem_of_singleton in Hin. discriminate.
Qed.

Lemma run_state_is_deleted_iff_successful_and_old_witness :
  mr_result_status (Examples.mr_run 1 (Some "success") 1000) = Some "success"
  /\ 1000 < 5000
  /\ _JobCleanupManager.map (H := Examples.msec_datetime) (fun _ => 5000)
       (IsMapreduceState (Examples.mr_run 1 (Some "success") 1000))
     = [_JobCleanupManager.Delete
          (IsMapreduceState (Examples.mr_run 1 (Some "success") 1000));
        _JobCleanupManager.Yield "mr_state_deleted" 1]
  /\ _JobCleanupManager.map (H := Examples.msec_datetime) (fun _ => 5000)
       (IsMapreduceState (Examples.mr_run 2 (Some "success") 5000))
     = [_JobCleanupManager.Yield "mr_state_remaining" 1].
Proof.
  split; [reflexivity |]. split; [lia |]. split.
  - apply (proj1 (run_state_is_deleted_iff_successful_and_old
                    (H := Examples.msec_datetime) (fun _ => 5000)
                    (Examples.mr_run 1 (Some "success") 1000))).
    split; [reflexivity | simpl; lia].
  - apply (proj1 (proj2 (run_state_is_deleted_iff_successful_and_old
                    (H := Examples.msec_datetime) (fun _ => 5000)
                    (Examples.mr_run 2 (Some "success") 5000)))).
    simpl. intros [_ Hlt]. lia.
Defined.

(** C9 on the code: a shard that is kept is tallied under
    ['mr_state_remaining'], the key of the kept runs, so that the
    aggregation reports one remaining count for runs and shards
    together and no remaining count of the shards.  Below: one failed
    run, one failed shard and one recent successful shard give a single
    line, with count 3, under the run-level key. *)
Theorem kept_shards_are_counted_with_runs :
  _JobCleanupManager.map (H := Examples.msec_datetime) (fun _ => 5000)
    (IsShardState (Examples.shard 1 (Some "failed") 0))
  = [_JobCleanupManager.Yield "mr_state_remaining" 1]
  /\ _JobCleanupManager.map (H := Examples.msec_datetime) (fun _ => 5000)
       (IsMapreduceState (Examples.mr_run 1 (Some "failed") 0))
     = [_JobCleanupManager.Yield "mr_state_remaining" 1]
  /\ _JobCleanupManager.aggregate (H := Examples.msec_datetime)
       (fun _ => 5000) Examples.failed_and_recent
     = {[ "mr_state_remaining" :=
            Some (Warning
              "Entities remaining count: 3 entities (mr_state_remaining)") ]}.
Proof. repeat split; vm_compute; reflexivity. Qed.

(** The deleted tallies keep the two kinds apart: an old successful run
    and an old successful shard are reported under their own keys. *)
Example deleted_counts_are_reported_by_kind :
  _JobCleanupManager.aggregate (H := Examples.msec_datetime) (fun _ => 5000)
    [IsMapreduceState (Examples.mr_run 1 (Some "success") 1000);
     IsShardState (Examples.shard 1 (Some "success") 1000);
     IsShardState (Examples.shard 2 (Some "success") 2000)]
  = {[ "mr_state_deleted" :=
         Some (Warning "Delete count: 1 entities (mr_state_deleted)");
       "shard_state_deleted" :=
         Some (Warning "Delete count: 2 entities (shard_state_deleted)") ]}.
Proof. vm_compute. reflexivity. Qed.

(** * Further properties of the reaper *)

Lemma judged_terminable_spec (ms : Z) (pline : Pline) :
  judged_terminable ms pline = true <->
  (exists t, startTimeMs pline = Some t /\ t < ms)
  \/ (startTimeMs pline = None
      /\ (status pline = "done" \/ status pline = "aborted"
          \/ currentAttempt pline > maxAttempts pline)).
Proof.
  unfold judged_terminable, job_started_too_long_ago, have_start_time,
    job_definitely_terminated.
  destruct (startTimeMs pline) as [t|]; simpl.
  - rewrite orb_false_r, bool_decide_eq_true. split.
    + intros Ht. left. exists t. auto.
    + intros [(t' & Heq & Ht)|[Hnone _]]; [congruence | discriminate].
  - rewrite !orb_true_iff, !bool_decide_eq_true. split.
    + intros [[Hd|Ha]|Hc]; right; auto.
    + intros [(t' & Heq & _)|[_ Hs]]; [discriminate |].
      destruct Hs as [Hd|[Ha|Hc]]; auto.
Qed.

(** Writing the marked copy of a stored row changes that row's flag and
    nothing else. *)
Lemma put_only_flags_set (rows cur : list JobModel) (j0 : JobModel) :
  NoDup (entity_key <$> rows) -> j0 ∈ rows ->
  only_flags_set rows cur ->
  only_flags_set rows (put (set_cleaned_up j0) cur).
Proof.
  unfold only_flags_set. intros Hnd Hin HF. revert Hnd Hin.
  induction HF as [|r r' rows cur HR HF IH]; intros Hnd Hin;
    [inversion Hin |].
  assert (Hkey : entity_key r' = entity_key r)
    by (destruct HR as [->| ->]; reflexivity).
  simpl. case_bool_decide as Hk.
  - constructor; [| exact HF]. right.
    rewrite (NoDup_keys_eq (r :: rows) r j0 Hnd); [reflexivity | left | exact Hin |].
    rewrite <- Hkey. exact Hk.
  - constructor; [exact HR |].
    rewrite fmap_cons in Hnd. apply NoDup_cons in Hnd as [_ Hnd].
    apply IH; [exact Hnd |].
    apply elem_of_cons in Hin as [->|Hin]; [| exact Hin].
    exfalso. apply Hk. rewrite Hkey. reflexivity.
Qed.

Section Frame.
Variable P : Platform.
Variable ms : Z.
Variable m : gmap string nat.
Variable fetched rows0 : list JobModel.
Hypothesis fetched_stored : forall j, j ∈ fetched -> j ∈ rows0.
Hypothesis distinct_keys : NoDup (entity_key <$> rows0).

Lemma step_only_flags_set (st : ReapState) (pline : Pline) :
  heap_tracks fetched st -> only_flags_set rows0 (store st) ->
  only_flags_set rows0 (store (clean_pipeline P ms m st pline)).
Proof.
  intros Hst HF. unfold clean_pipeline.
  destruct (judged_terminable ms pline); [| exact HF].
  rewrite request_store.
  destruct (m !! pipelineId pline) as [ref|]; [| exact HF].
  unfold mark_cleaned_up.
  destruct (heap st !! ref) as [j|] eqn:Hj; [simpl | exact HF].
  destruct (heap_tracks_lookup fetched st ref j Hst Hj) as (j0 & Hj0 & ->).
  apply put_only_flags_set; [exact distinct_keys | | exact HF].
  apply fetched_stored. eapply list_elem_of_lookup_2. exact Hj0.
Qed.

Lemma loop_only_flags_set (plines : list Pline) (st : ReapState) :
  heap_tracks fetched st -> only_flags_set rows0 (store st) ->
  only_flags_set rows0 (store (foldl (clean_pipeline P ms m) st plines)).
Proof.
  revert st; induction plines as [|pl rest IH]; intros st Hst HF; simpl;
    [exact HF |].
  apply IH; [apply step_heap_tracks, Hst | apply step_only_flags_set; assumption].
Qed.
End Frame.

(** X1: a pass adds, removes and reorders no row of the datastore, and
    changes nothing in a row but its cleaned-up flag, which it only ever
    sets; rows that were cleaned up before the pass are exactly as they
    were.  (The datastore has distinct keys and the query returns stored
    rows.) *)
Theorem pass_only_sets_flags (P : Platform) (recency_msec : Z)
    (rows : list JobModel) :
  NoDup (entity_key <$> rows) -> query_sound P ->
  only_flags_set rows (store (_clean_mapreduce P recency_msec rows))
  /\ length (store (_clean_mapreduce P recency_msec rows)) = length rows
  /\ (forall i row,
        rows !! i = Some row -> has_been_cleaned_up row = true ->
        store (_clean_mapreduce P recency_msec rows) !! i = Some row).
Proof.
  intros Hnd Hq.
  assert (HF : only_flags_set rows
                 (store (_clean_mapreduce P recency_msec rows))).
  { rewrite pass_store. unfold clean_pipelines.
    apply (loop_only_flags_set P _ _ (job_instances P recency_msec rows) rows).
    - intros j Hj. eapply Hq. exact Hj.
    - exact Hnd.
    - apply initial_heap_tracks.
    - apply Forall2_same_length_lookup. split; [reflexivity |].
      intros i x y Hx Hy. left. simpl in Hy. congruence. }
  split; [exact HF |]. split.
  - symmetry. eapply Forall2_length. exact HF.
  - intros i row Hrow Hc.
    destruct (Forall2_lookup_l _ _ _ _ _ HF Hrow) as (row' & Hrow' & HR).
    rewrite Hrow'. f_equal.
    destruct HR as [->| ->]; [reflexivity |].
    apply set_cleaned_up_marked. exact Hc.
Qed.

Lemma pass_only_sets_flags_witness :
  NoDup (entity_key <$> Examples.rows)
  /\ only_flags_set Examples.rows
       (store (Examples.run
                 [Examples.done_without_start; Examples.running_old_start]
                 true false Examples.rows))
  /\ has_been_cleaned_up
       <$> store (Examples.run
                    [Examples.done_without_start; Examples.running_old_start]
                    true false Examples.rows)
     = [true; true; false].
Proof.
  assert (Hnd : NoDup (entity_key <$> Examples.rows))
    by (apply (bool_decide_unpack _); vm_compute; exact I).
  split; [exact Hnd |]. split; [| vm_compute; reflexivity].
  apply (pass_only_sets_flags
           (Examples.platform
              [Examples.done_without_start; Examples.running_old_start]
              true false)
           MAX_MAPREDUCE_METADATA_RETENTION_MSECS Examples.rows Hnd
           (recent_jobs_sound _ _ _)).
Defined.

(** X2: a record is written by a pass only if it was fetched, started
    before [now - recency_msec], was not cleaned up, and names in its
    metadata a root pipeline that either reports a start time older than
    [now - recency_msec] or reports no start time and is 'done',
    'aborted' or out of attempts.  What is written is the record with
    its flag set. *)
Theorem written_record_is_eligible (P : Platform) (recency_msec : Z)
    (rows : list JobModel) (j : JobModel) :
  Put j ∈ trace (_clean_mapreduce P recency_msec rows) ->
  exists j0 pline,
    j = set_cleaned_up j0
    /\ j0 ∈ get_recent_jobs P rows 1000
              (recency_msec + 7 * 24 * 60 * 60 * 1000)
    /\ time_started_msec j0 < get_current_time_in_millisecs P - recency_msec
    /\ has_been_cleaned_up j0 = false
    /\ metadata j0 !! "root_pipeline_id" = Some (pipelineId pline)
    /\ pline ∈ get_root_list P
    /\ ((exists t, startTimeMs pline = Some t
                   /\ t < get_current_time_in_millisecs P - recency_msec)
        \/ (startTimeMs pline = None
            /\ (status pline = "done" \/ status pline = "aborted"
                \/ currentAttempt pline > maxAttempts pline))).
Proof.
  intros Hput.
  apply put_in_pass in Hput as (pline & ref & j0 & Hpl & Hjt & Hm & Hf & ->).
  destruct (mapping_lookup _ _ _ _ _ Hm) as (j0' & Hf' & Ht & Hc & Hmd).
  rewrite Hf in Hf'; injection Hf' as <-.
  exists j0, pline. split; [reflexivity |].
  split; [eapply list_elem_of_lookup_2; exact Hf |].
  split; [exact Ht |]. split; [exact Hc |]. split; [exact Hmd |].
  split; [exact Hpl |]. apply judged_terminable_spec. exact Hjt.
Qed.

Lemma written_record_is_eligible_witness :
  Put (set_cleaned_up Examples.job2)
  ∈ trace (Examples.run
             [Examples.done_recent_start; Examples.running_old_start]
             true false Examples.rows)
  /\ exists j0 pline,
       set_cleaned_up Examples.job2 = set_cleaned_up j0
       /\ j0 ∈ Examples.recent_jobs Examples.now Examples.rows 1000
                 (MAX_MAPREDUCE_METADATA_RETENTION_MSECS
                  + 7 * 24 * 60 * 60 * 1000)
       /\ time_started_msec j0
          < Examples.now - MAX_MAPREDUCE_METADATA_RETENTION_MSECS
       /\ has_been_cleaned_up j0 = false
       /\ metadata j0 !! "root_pipeline_id" = Some (pipelineId pline)
       /\ pline ∈ [Examples.done_recent_start; Examples.running_old_start]
       /\ ((exists t, startTimeMs pline = Some t
                      /\ t < Examples.now
                             - MAX_MAPREDUCE_METADATA_RETENTION_MSECS)
           \/ (startTimeMs pline = None
               /\ (status pline = "done" \/ status pline = "aborted"
                   \/ currentAttempt pline > maxAttempts pline))).
Proof.
  assert (H : Put (set_cleaned_up Examples.job2)
              ∈ trace (Examples.run
                         [Examples.done_recent_start;
                          Examples.running_old_start]
                         true false Examples.rows))
    by (vm_compute; left).
  split; [exact H |].
  exact (written_record_is_eligible
           (Examples.platform
              [Examples.done_recent_start; Examples.running_old_start]
              true false)
           MAX_MAPREDUCE_METADATA_RETENTION_MSECS Examples.rows _ H).
Defined.

Lemma calls_for_marked_and_resolved (P : Platform) (ms : Z)
    (m : gmap string nat) (fetched : list JobModel) (pline : Pline)
    (ref : nat) (j0 : JobModel) (p : Pipeline) :
  judged_terminable ms pline = true ->
  m !! pipelineId pline = Some ref -> fetched !! ref = Some j0 ->
  from_id P (pipelineId pline) = Some p ->
  calls_for P ms m fetched pline = [Put (set_cleaned_up j0); Cleanup p].
Proof.
  intros Hjt Hm Hf Hp. unfold calls_for. rewrite Hjt, Hm, Hp.
  change (Some ref ≫= (fun ref0 => fetched !! ref0)) with (fetched !! ref).
  rewrite Hf. reflexivity.
Qed.

(** X3: for a terminable root pipeline whose id is in the mapping and
    is resolved by [Pipeline.from_id], the write of the marked record
    comes immediately before the cleanup call of that pipeline in the
    calls of the pass. *)
Theorem mark_precedes_cleanup (P : Platform) (recency_msec : Z)
    (rows : list JobModel) (pline : Pline) (ref : nat) (p : Pipeline) :
  pline ∈ get_root_list P ->
  judged_terminable (get_current_time_in_millisecs P - recency_msec) pline
  = true ->
  pipeline_id_to_job_instance P recency_msec rows !! pipelineId pline
  = Some ref ->
  from_id P (pipelineId pline) = Some p ->
  exists j0 earlier later,
    job_instances P recency_msec rows !! ref = Some j0
    /\ trace (_clean_mapreduce P recency_msec rows)
       = earlier ++ Put (set_cleaned_up j0) :: Cleanup p :: later.
Proof.
  intros Hpl Hjt Hm Hp.
  destruct (mapping_lookup _ _ _ _ _ Hm) as (j0 & Hf & _).
  apply list_elem_of_split in Hpl as (before & after & Hlist).
  pose proof (pass_trace P recency_msec rows) as Ht.
  rewrite Hlist, bind_app, bind_cons in Ht.
  rewrite (calls_for_marked_and_resolved P
             (max_start_time_msec P recency_msec) _ _ pline ref j0 p
             Hjt Hm Hf Hp) in Ht.
  rewrite <- !app_assoc in Ht.
  exists j0. eexists. eexists. split; [exact Hf | exact Ht].
Qed.

Lemma mark_precedes_cleanup_witness :
  judged_terminable
    (Examples.now - MAX_MAPREDUCE_METADATA_RETENTION_MSECS)
    Examples.running_old_start = true
  /\ exists j0 earlier later,
       job_instances
         (Examples.platform
            [Examples.done_without_start; Examples.running_old_start]
            true false)
         MAX_MAPREDUCE_METADATA_RETENTION_MSECS Examples.rows !! 1%nat
       = Some j0
       /\ trace (Examples.run
                   [Examples.done_without_start; Examples.running_old_start]
                   true false Examples.rows)
          = earlier ++ Put (set_cleaned_up j0)
                       :: Cleanup (mkPipeline "p2") :: later.
Proof.
  split; [reflexivity |].
  apply (mark_precedes_cleanup
           (Examples.platform
              [Examples.done_without_start; Examples.running_old_start]
              true false)
           MAX_MAPREDUCE_METADATA_RETENTION_MSECS Examples.rows
           Examples.running_old_start 1%nat (mkPipeline "p2")).
  - right; left.
  - reflexivity.
  - reflexivity.
  - reflexivity.
Defined.

(** *** The mapping holds the last eligible record of each pipeline id *)

Lemma collect_pipeline_ids_keeps (ms : Z) (fetched : list JobModel) :
  forall (ref : nat) (acc : gmap string nat) (pid : string) (r0 : nat),
    acc !! pid = Some r0 ->
    exists r, collect_pipeline_ids ms ref fetched acc !! pid = Some r
              /\ (r = r0 \/ (ref <= r)%nat).
Proof.
  induction fetched as [|job rest IH]; intros ref acc pid r0 Hacc.
  - exists r0. split; [exact Hacc | left; reflexivity].
  - cbn [collect_pipeline_ids].
    set (acc' := if bool_decide (time_started_msec job < ms)
                    && negb (has_been_cleaned_up job)
                 then match metadata job !! "root_pipeline_id" with
                      | Some pipeline_id => <[pipeline_id := ref]> acc
                      | None => acc
                      end
                 else acc).
    assert (Hacc' : exists r1, acc' !! pid = Some r1 /\ (r1 = r0 \/ r1 = ref)).
    { subst acc'. destruct (_ && _); [| exists r0; auto].
      destruct (metadata job !! "root_pipeline_id") as [pid'|];
        [| exists r0; auto].
      destruct (decide (pid' = pid)) as [->|Hne].
      - exists ref. rewrite lookup_insert_eq. auto.
      - exists r0. rewrite lookup_insert_ne by exact Hne. auto. }
    destruct Hacc' as (r1 & Hr1 & Hor).
    destruct (IH (S ref) acc' pid r1 Hr1) as (r & Hr & Hor').
    exists r. split; [exact Hr |]. lia.
Qed.

Lemma collect_pipeline_ids_last (ms : Z) (fetched : list JobModel) :
  forall (ref : nat) (acc : gmap string nat) (pid : string) (i : nat)
         (j : JobModel),
    fetched !! i = Some j -> eligible ms j pid ->
    exists r, collect_pipeline_ids ms ref fetched acc !! pid = Some r
              /\ (ref + i <= r)%nat.
Proof.
  induction fetched as [|job rest IH]; intros ref acc pid i j Hj Hel;
    [discriminate Hj |].
  cbn [collect_pipeline_ids]. destruct i as [|i].
  - injection Hj as ->. destruct Hel as (Ht & Hc & Hmd).
    rewrite bool_decide_eq_true_2 by exact Ht. rewrite Hc, Hmd.
    cbn [negb andb].
    destruct (collect_pipeline_ids_keeps ms rest (S ref)
                (<[pid := ref]> acc) pid ref (lookup_insert_eq _ _ _))
      as (r & Hr & Hor).
    exists r. split; [exact Hr | lia].
  - destruct (IH (S ref)
                (if bool_decide (time_started_msec job < ms)
                    && negb (has_been_cleaned_up job)
                 then match metadata job !! "root_pipeline_id" with
                      | Some pipeline_id => <[pipeline_id := ref]> acc
                      | None => acc
                      end
                 else acc) pid i j Hj Hel) as (r & Hr & Hle).
    exists r. split; [exact Hr | lia].
Qed.

Lemma mapping_last_eligible (P : Platform) (recency_msec : Z)
    (rows : list JobModel) (pid : string) (i : nat) (j : JobModel) :
  job_instances P recency_msec rows !! i = Some j ->
  eligible (max_start_time_msec P recency_msec) j pid ->
  exists r j',
    pipeline_id_to_job_instance P recency_msec rows !! pid = Some r
    /\ (i <= r)%nat
    /\ job_instances P recency_msec rows !! r = Some j'
    /\ eligible (max_start_time_msec P recency_msec) j' pid.
Proof.
  intros Hj Hel.
  destruct (collect_pipeline_ids_last _ _ 0%nat ∅ pid i j Hj Hel)
    as (r & Hr & Hle).
  destruct (mapping_lookup P recency_msec rows pid r Hr)
    as (j' & Hj' & Ht & Hc & Hmd).
  exists r, j'. split; [exact Hr |]. split; [lia |].
  split; [exact Hj' |]. split; [exact Ht |]. split; assumption.
Qed.

(** X4: the pipeline-to-job mapping holds, for every pipeline id that
    an eligible fetched record carries, the last such record in fetch
    order; and it has no entry for an id that no eligible record
    carries. *)
Theorem mapping_holds_last_eligible (P : Platform) (recency_msec : Z)
    (rows : list JobModel) (pid : string) :
  (forall i j,
     job_instances P recency_msec rows !! i = Some j ->
     eligible (get_current_time_in_millisecs P - recency_msec) j pid ->
     exists r j',
       pipeline_id_to_job_instance P recency_msec rows !! pid = Some r
       /\ job_instances P recency_msec rows !! r = Some j'
       /\ eligible (get_current_time_in_millisecs P - recency_msec) j' pid
       /\ forall i' j'',
            job_instances P recency_msec rows !! i' = Some j'' ->
            eligible (get_current_time_in_millisecs P - recency_msec) j'' pid ->
            (i' <= r)%nat)
  /\ ((forall i j,
         job_instances P recency_msec rows !! i = Some j ->
         ~ eligible (get_current_time_in_millisecs P - recency_msec) j pid) ->
      pipeline_id_to_job_instance P recency_msec rows !! pid = None).
Proof.
  split.
  - intros i j Hj Hel.
    destruct (mapping_last_eligible P recency_msec rows pid i j Hj Hel)
      as (r & j' & Hr & _ & Hj' & Hel').
    exists r, j'. split; [exact Hr |]. split; [exact Hj' |].
    split; [exact Hel' |].
    intros i' j'' Hj'' Hel''.
    destruct (mapping_last_eligible P recency_msec rows pid i' j'' Hj'' Hel'')
      as (r' & _ & Hr' & Hle & _).
    rewrite Hr in Hr'. injection Hr' as <-. exact Hle.
  - intros Hnone.
    destruct (pipeline_id_to_job_instance P recency_msec rows !! pid)
      as [r|] eqn:Hr; [| reflexivity].
    destruct (mapping_lookup P recency_msec rows pid r Hr)
      as (j & Hj & Ht & Hc & Hmd).
    exfalso. apply (Hnone r j Hj). split; [exact Ht |]. split; assumption.
Qed.

Lemma mapping_holds_last_eligible_witness :
  eligible (Examples.now - MAX_MAPREDUCE_METADATA_RETENTION_MSECS)
    Examples.job1 "p1"
  /\ exists r j',
       pipeline_id_to_job_instance (Examples.platform [] true false)
         MAX_MAPREDUCE_METADATA_RETENTION_MSECS Examples.rows_with_rerun
       !! "p1" = Some r
       /\ job_instances (Examples.platform [] true false)
            MAX_MAPREDUCE_METADATA_RETENTION_MSECS Examples.rows_with_rerun
          !! r = Some j'
       /\ eligible (Examples.now - MAX_MAPREDUCE_METADATA_RETENTION_MSECS)
            j' "p1"
       /\ forall i' j'',
            job_instances (Examples.platform [] true false)
              MAX_MAPREDUCE_METADATA_RETENTION_MSECS Examples.rows_with_rerun
            !! i' = Some j'' ->
            eligible (Examples.now - MAX_MAPREDUCE_METADATA_RETENTION_MSECS)
              j'' "p1" ->
            (i' <= r)%nat.
Proof.
  assert (Hel : eligible
                  (Examples.now - MAX_MAPREDUCE_METADATA_RETENTION_MSECS)
                  Examples.job1 "p1")
    by (split; [reflexivity | split; reflexivity]).
  split; [exact Hel |].
  apply (proj1 (mapping_holds_last_eligible (Examples.platform [] true false)
                  MAX_MAPREDUCE_METADATA_RETENTION_MSECS
                  Examples.rows_with_rerun "p1") 0%nat Examples.job1);
    [reflexivity | exact Hel].
Defined.

(** X5: a fetched record that is eligible under a pipeline id, and
    after which no other eligible record with that id was fetched, is
    marked and written by the pass as soon as the root list holds a
    pipeline with that id that is judged terminable. *)
Theorem last_eligible_record_is_marked (P : Platform) (recency_msec : Z)
    (rows : list JobModel) (pline : Pline) (i : nat) (j : JobModel) :
  job_instances P recency_msec rows !! i = Some j ->
  eligible (get_current_time_in_millisecs P - recency_msec) j
    (pipelineId pline) ->
  (forall i' j',
     (i < i')%nat -> job_instances P recency_msec rows !! i' = Some j' ->
     ~ eligible (get_current_time_in_millisecs P - recency_msec) j'
         (pipelineId pline)) ->
  pline ∈ get_root_list P ->
  judged_terminable (get_current_time_in_millisecs P - recency_msec) pline
  = true ->
  heap (_clean_mapreduce P recency_msec rows) !! i = Some (set_cleaned_up j)
  /\ Put (set_cleaned_up j) ∈ trace (_clean_mapreduce P recency_msec rows)
  /\ cleaned_row (entity_key j) (store (_clean_mapreduce P recency_msec rows)).
Proof.
  intros Hj Hel Hlast Hpl Hjt.
  destruct (mapping_last_eligible P recency_msec rows _ i j Hj Hel)
    as (r & j' & Hr & Hle & Hj' & Hel').
  assert (r = i) as ->.
  { destruct (decide (r = i)) as [Heq|Hne]; [exact Heq |].
    exfalso. apply (Hlast r j'); [lia | exact Hj' | exact Hel']. }
  rewrite Hj in Hj'. injection Hj' as <-.
  destruct (terminable_pipeline_effects P recency_msec rows pline Hpl Hjt)
    as [Hmark _].
  destruct (Hmark i Hr) as (j0 & Hf & _ & Hh & Hp & Hs).
  unfold job_instances in Hj, Hf. rewrite Hj in Hf. injection Hf as <-.
  split; [exact Hh |]. split; [exact Hp | exact Hs].
Qed.

Lemma last_eligible_record_is_marked_witness :
  eligible (Examples.now - MAX_MAPREDUCE_METADATA_RETENTION_MSECS)
    Examples.job1_rerun "p1"
  /\ heap (Examples.run [Examples.done_without_start] true false
             Examples.rows_with_rerun) !! 1%nat
     = Some (set_cleaned_up Examples.job1_rerun)
  /\ Put (set_cleaned_up Examples.job1_rerun)
     ∈ trace (Examples.run [Examples.done_without_start] true false
                Examples.rows_with_rerun)
  /\ cleaned_row "job1b"
       (store (Examples.run [Examples.done_without_start] true false
                 Examples.rows_with_rerun)).
Proof.
  assert (Hel : eligible
                  (Examples.now - MAX_MAPREDUCE_METADATA_RETENTION_MSECS)
                  Examples.job1_rerun "p1")
    by (split; [reflexivity | split; reflexivity]).
  split; [exact Hel |].
  apply (last_eligible_record_is_marked
           (Examples.platform [Examples.done_without_start] true false)
           MAX_MAPREDUCE_METADATA_RETENTION_MSECS Examples.rows_with_rerun
           Examples.done_without_start 1%nat Examples.job1_rerun).
  - reflexivity.
  - exact Hel.
  - intros i' j' Hlt Hj' (_ & _ & Hmd).
    destruct i' as [|[|[|i']]]; try lia.
    + injection Hj' as <-. discriminate Hmd.
    + discriminate Hj'.
  - left.
  - reflexivity.
Defined.

(** X6: when two eligible fetched records carry the same root pipeline
    id, the earlier one in fetch order is not written by the pass
    (fetched records have distinct keys). *)
Theorem shadowed_record_is_not_written (P : Platform) (recency_msec : Z)
    (rows : list JobModel) (pid : string) (i i' : nat) (j j' : JobModel) :
  NoDup (entity_key <$> job_instances P recency_msec rows) ->
  job_instances P recency_msec rows !! i = Some j ->
  job_instances P recency_msec rows !! i' = Some j' ->
  (i < i')%nat ->
  eligible (get_current_time_in_millisecs P - recency_msec) j pid ->
  eligible (get_current_time_in_millisecs P - recency_msec) j' pid ->
  Put (set_cleaned_up j) ∉ trace (_clean_mapreduce P recency_msec rows).
Proof.
  intros Hnd Hj Hj' Hlt Hel Hel' Hput.
  apply put_in_pass in Hput as (pline & ref & j0 & _ & _ & Hm & Hf & Heq).
  assert (Hj0 : j0 = j).
  { apply (NoDup_keys_eq _ j0 j Hnd).
    - eapply list_elem_of_lookup_2. exact Hf.
    - eapply list_elem_of_lookup_2. exact Hj.
    - change (entity_key (set_cleaned_up j0) = entity_key (set_cleaned_up j)).
      rewrite Heq. reflexivity. }
  subst j0.
  assert (Href : ref = i).
  { eapply NoDup_lookup; [| exact Hf | exact Hj].
    eapply NoDup_fmap_1. exact Hnd. }
  subst ref.
  destruct (mapping_lookup _ _ _ _ _ Hm) as (j0 & Hf0 & _ & _ & Hmd).
  rewrite Hf in Hf0. injection Hf0 as <-.
  destruct Hel as (_ & _ & Hmd'). rewrite Hmd in Hmd'. injection Hmd' as Hpid.
  destruct (mapping_last_eligible P recency_msec rows pid i' j' Hj' Hel')
    as (r & _ & Hr & Hle & _).
  rewrite Hpid in Hm. rewrite Hm in Hr. injection Hr as <-. lia.
Qed.

Lemma shadowed_record_is_not_written_witness :
  eligible (Examples.now - MAX_MAPREDUCE_METADATA_RETENTION_MSECS)
    Examples.job1 "p1"
  /\ eligible (Examples.now - MAX_MAPREDUCE_METADATA_RETENTION_MSECS)
       Examples.job1_rerun "p1"
  /\ Put (set_cleaned_up Examples.job1)
     ∉ trace (Examples.run [Examples.done_without_start] true false
                Examples.rows_with_rerun).
Proof.
  assert (Hel : eligible
                  (Examples.now - MAX_MAPREDUCE_METADATA_RETENTION_MSECS)
                  Examples.job1 "p1")
    by (split; [reflexivity | split; reflexivity]).
  assert (Hel' : eligible
                   (Examples.now - MAX_MAPREDUCE_METADATA_RETENTION_MSECS)
                   Examples.job1_rerun "p1")
    by (split; [reflexivity | split; reflexivity]).
  split; [exact Hel |]. split; [exact Hel' |].
  apply (shadowed_record_is_not_written
           (Examples.platform [Examples.done_without_start] true false)
           MAX_MAPREDUCE_METADATA_RETENTION_MSECS Examples.rows_with_rerun
           "p1" 0%nat 1%nat Examples.job1 Examples.job1_rerun).
  - apply (bool_decide_unpack _). vm_compute. exact I.
  - reflexivity.
  - reflexivity.
  - lia.
  - exact Hel.
  - exact Hel'.
Defined.

(** *** The cleanup calls of a pass *)

Lemma cleanup_calls_calls_for (P : Platform) (ms : Z) (m : gmap string nat)
    (fetched : list JobModel) (plines : list Pline) :
  cleanup_calls (plines ≫= calls_for P ms m fetched)
  = omap (fun pl => if judged_terminable ms pl
                    then from_id P (pipelineId pl) else None) plines.
Proof.
  induction plines as [|pl rest IH]; [reflexivity |].
  rewrite bind_cons. unfold cleanup_calls in *. rewrite omap_app, IH.
  cbn [omap list_omap]. unfold calls_for.
  destruct (judged_terminable ms pl); [| reflexivity].
  rewrite omap_app.
  destruct (m !! pipelineId pl ≫= _); destruct (from_id P (pipelineId pl));
    reflexivity.
Qed.

Lemma length_resolved_terminable (P : Platform) (ms : Z)
    (plines : list Pline) :
  length (omap (fun pl => if judged_terminable ms pl
                          then from_id P (pipelineId pl) else None) plines)
  = length (filter (fun pl => judged_terminable ms pl && resolved P pl)
              plines).
Proof.
  induction plines as [|pl rest IH]; [reflexivity |].
  cbn [omap list_omap]. unfold resolved at 1.
  destruct (judged_terminable ms pl) eqn:Hjt;
    [destruct (from_id P (pipelineId pl)) eqn:Hp |].
  - rewrite filter_cons_True
      by (unfold resolved; rewrite Hjt, Hp; exact I).
    cbn [length]. rewrite IH. reflexivity.
  - rewrite filter_cons_False
      by (unfold resolved; rewrite Hjt, Hp; intros []).
    exact IH.
  - rewrite filter_cons_False by (rewrite Hjt; intros []). exact IH.
Qed.

(** X7: the cleanup calls of a pass are, in the order of the root list,
    the objects that [Pipeline.from_id] returns for the pipelines judged
    terminable; they do not depend on the job records in the datastore;
    and [num_cleaned], the logged count, is the number of cleanup calls
    made. *)
Theorem cleanup_calls_of_pass (P : Platform) (recency_msec : Z)
    (rows : list JobModel) :
  cleanup_calls (trace (_clean_mapreduce P recency_msec rows))
  = omap (fun pl =>
            if judged_terminable
                 (get_current_time_in_millisecs P - recency_msec) pl
            then from_id P (pipelineId pl) else None)
      (get_root_list P)
  /\ (forall rows',
        cleanup_calls (trace (_clean_mapreduce P recency_msec rows'))
        = cleanup_calls (trace (_clean_mapreduce P recency_msec rows)))
  /\ num_cleaned (_clean_mapreduce P recency_msec rows)
     = Z.of_nat (length (cleanup_calls
                           (trace (_clean_mapreduce P recency_msec rows)))).
Proof.
  assert (Hcalls : forall rows0,
    cleanup_calls (trace (_clean_mapreduce P recency_msec rows0))
    = omap (fun pl =>
              if judged_terminable (max_start_time_msec P recency_msec) pl
              then from_id P (pipelineId pl) else None)
        (get_root_list P)).
  { intros rows0. rewrite pass_trace. unfold cleanup_calls at 1.
    rewrite omap_app.
    replace (omap _ ([Warning _] ++ _)) with (@nil Pipeline)
      by (destruct (do_unfinished_jobs_exist P _ _); reflexivity).
    rewrite app_nil_r. apply cleanup_calls_calls_for. }
  split; [apply Hcalls |]. split.
  - intros rows'. rewrite !Hcalls. reflexivity.
  - rewrite pass_num_cleaned, Hcalls, length_resolved_terminable.
    reflexivity.
Qed.

(** *** Empty inputs *)

Lemma loop_without_mapping (P : Platform) (ms : Z) (plines : list Pline)
    (st : ReapState) :
  store (foldl (clean_pipeline P ms ∅) st plines) = store st
  /\ put_calls (trace (foldl (clean_pipeline P ms ∅) st plines))
     = put_calls (trace st).
Proof.
  revert st; induction plines as [|pl rest IH]; intros st;
    [split; reflexivity |].
  cbn [foldl]. destruct (IH (clean_pipeline P ms ∅ st pl)) as [Hs Hp].
  rewrite Hs, Hp. unfold clean_pipeline.
  destruct (judged_terminable ms pl); [| split; reflexivity].
  rewrite lookup_empty. unfold request_cleanup.
  destruct (from_id P (pipelineId pl)); [| split; reflexivity].
  split; [reflexivity |]. cbn [trace]. unfold put_calls.
  rewrite omap_app. apply app_nil_r.
Qed.

(** X8: when the query returns no record, a pass writes nothing and
    leaves the datastore as it is (pipelines are still cleaned up); when
    there is no root pipeline, a pass writes nothing, makes no cleanup
    call, leaves the datastore as it is and logs a count of 0. *)
Theorem pass_on_empty_inputs (P : Platform) (recency_msec : Z)
    (rows : list JobModel) :
  (get_recent_jobs P rows 1000 (recency_msec + 7 * 24 * 60 * 60 * 1000) = [] ->
   put_calls (trace (_clean_mapreduce P recency_msec rows)) = []
   /\ store (_clean_mapreduce P recency_msec rows) = rows)
  /\ (get_root_list P = [] ->
      put_calls (trace (_clean_mapreduce P recency_msec rows)) = []
      /\ cleanup_calls (trace (_clean_mapreduce P recency_msec rows)) = []
      /\ store (_clean_mapreduce P recency_msec rows) = rows
      /\ Warning "0 MR jobs cleaned up."
         ∈ trace (_clean_mapreduce P recency_msec rows)).
Proof.
  split.
  - intros Hnone.
    assert (Hm : pipeline_id_to_job_instance P recency_msec rows = ∅).
    { unfold pipeline_id_to_job_instance, job_instances, max_age_msec.
      rewrite Hnone. reflexivity. }
    assert (Hst : store (clean_pipelines P recency_msec rows) = rows
                  /\ put_calls (trace (clean_pipelines P recency_msec rows))
                     = []).
    { unfold clean_pipelines. rewrite Hm. apply loop_without_mapping. }
    destruct Hst as [Hs Hp]. split; [| rewrite pass_store; exact Hs].
    rewrite pass_trace, <- looped_trace. unfold put_calls in *.
    rewrite omap_app, Hp.
    destruct (do_unfinished_jobs_exist P _ _); reflexivity.
  - intros Hnone.
    assert (Hloop : clean_pipelines P recency_msec rows
                    = {| heap := job_instances P recency_msec rows;
                         store := rows; trace := []; num_cleaned := 0 |}).
    { unfold clean_pipelines. rewrite Hnone. reflexivity. }
    rewrite pass_store, pass_trace, Hloop, Hnone.
    split; [| split; [| split]].
    + destruct (do_unfinished_jobs_exist P _ _); reflexivity.
    + destruct (do_unfinished_jobs_exist P _ _); reflexivity.
    + reflexivity.
    + left.
Qed.

Lemma pass_on_empty_inputs_witness :
  (put_calls (trace (Examples.run [Examples.done_without_start] true false []))
   = []
   /\ store (Examples.run [Examples.done_without_start] true false []) = [])
  /\ put_calls (trace (Examples.run [] true false Examples.rows)) = []
  /\ cleanup_calls (trace (Examples.run [] true false Examples.rows)) = []
  /\ store (Examples.run [] true false Examples.rows) = Examples.rows
  /\ Warning "0 MR jobs cleaned up."
     ∈ trace (Examples.run [] true false Examples.rows).
Proof.
  split.
  - apply (proj1 (pass_on_empty_inputs
                    (Examples.platform [Examples.done_without_start] true false)
                    MAX_MAPREDUCE_METADATA_RETENTION_MSECS [])).
    reflexivity.
  - apply (proj2 (pass_on_empty_inputs (Examples.platform [] true false)
                    MAX_MAPREDUCE_METADATA_RETENTION_MSECS Examples.rows)).
    reflexivity.
Defined.

(** X9: a root pipeline that reports a start time not older than
    [now - recency_msec] is never acted upon, whatever its status and
    attempt counts: the loop body leaves the state as it is, and the
    pass gives the same result as a pass over the root list without
    it. *)
Theorem recent_pipeline_is_kept (P : Platform) (recency_msec : Z)
    (rows : list JobModel) (pline : Pline) (t : Z) :
  startTimeMs pline = Some t ->
  get_current_time_in_millisecs P - recency_msec <= t ->
  (forall m st,
     clean_pipeline P (get_current_time_in_millisecs P - recency_msec)
       m st pline = st)
  /\ (forall before after,
        get_root_list P = before ++ pline :: after ->
        _clean_mapreduce P recency_msec rows
        = _clean_mapreduce (with_root_list (before ++ after) P)
            recency_msec rows).
Proof.
  intros Hstart Hrecent.
  assert (Hskip : forall m st,
            clean_pipeline P (max_start_time_msec P recency_msec) m st pline
            = st).
  { intros m st.
    unfold clean_pipeline, judged_terminable, job_started_too_long_ago,
      have_start_time.
    rewrite Hstart. rewrite bool_decide_eq_false_2; [reflexivity |].
    unfold max_start_time_msec. lia. }
  split; [exact Hskip |].
  intros before after Hlist.
  assert (Hloop : clean_pipelines P recency_msec rows
                  = clean_pipelines (with_root_list (before ++ after) P)
                      recency_msec rows).
  { unfold clean_pipelines. rewrite Hlist.
    change (get_root_list (with_root_list (before ++ after) P))
      with (before ++ after).
    rewrite !foldl_app. cbn [foldl]. rewrite Hskip. reflexivity. }
  unfold _clean_mapreduce. rewrite <- Hloop. reflexivity.
Qed.

Lemma recent_pipeline_is_kept_witness :
  startTimeMs Examples.done_recent_start = Some 900000000
  /\ Examples.now - MAX_MAPREDUCE_METADATA_RETENTION_MSECS <= 900000000
  /\ job_definitely_terminated Examples.done_recent_start = true
  /\ Examples.run [Examples.done_recent_start; Examples.running_old_start]
       true false Examples.rows
     = _clean_mapreduce
         (with_root_list [Examples.running_old_start]
            (Examples.platform
               [Examples.done_recent_start; Examples.running_old_start]
               true false))
         MAX_MAPREDUCE_METADATA_RETENTION_MSECS Examples.rows.
Proof.
  split; [reflexivity |]. split; [vm_compute; discriminate |].
  split; [reflexivity |].
  apply (proj2 (recent_pipeline_is_kept
           (Examples.platform
              [Examples.done_recent_start; Examples.running_old_start]
              true false)
           MAX_MAPREDUCE_METADATA_RETENTION_MSECS Examples.rows
           Examples.done_recent_start 900000000 eq_refl
           ltac:(vm_compute; discriminate))
           [] [Examples.running_old_start]).
  reflexivity.
Defined.

(** * Further properties of the cleanup job *)

(** *** Stringified integers come back through [literal_eval] *)

Lemma digit_value (d : N) :
  (d < 10)%N -> Z.of_nat (nat_of_ascii (pretty_N_char d)) - 48 = Z.of_N d.
Proof.
  intros Hd.
  assert (Hcases : (d = 0 \/ d = 1 \/ d = 2 \/ d = 3 \/ d = 4 \/ d = 5
                    \/ d = 6 \/ d = 7 \/ d = 8 \/ d = 9)%N) by lia.
  repeat (destruct Hcases as [->|Hcases]; [reflexivity |]).
  subst d. reflexivity.
Qed.

Lemma eval_digits_step (acc : Z) (d : N) (s : string) :
  (d < 10)%N ->
  _JobCleanupManager.eval_digits acc (String (pretty_N_char d) s)
  = _JobCleanupManager.eval_digits (10 * acc + Z.of_N d) s.
Proof.
  intros Hd. cbn [_JobCleanupManager.eval_digits].
  rewrite (digit_value d Hd).
  rewrite bool_decide_eq_true_2 by lia. reflexivity.
Qed.

(** Reading the digits that [pretty_N_go] puts in front of [s] shifts
    the accumulator and adds the number. *)
Lemma eval_digits_pretty_N_go (x : N) :
  forall s, exists c,
    forall acc,
      _JobCleanupManager.eval_digits acc (pretty_N_go x s)
      = _JobCleanupManager.eval_digits (acc * c + Z.of_N x) s.
Proof.
  induction (N.lt_wf_0 x) as [x _ IH]. intros s.
  destruct (decide (x = 0%N)) as [->|Hx].
  - exists 1. intros acc. rewrite pretty_N_go_0. f_equal. lia.
  - assert (Hpos : (0 < x)%N) by lia.
    destruct (IH (x `div` 10)%N (N.div_lt x 10 Hpos eq_refl)
                (String (pretty_N_char (x `mod` 10)) s)) as (c & Hc).
    exists (c * 10). intros acc.
    rewrite (pretty_N_go_step x s Hpos), Hc.
    rewrite eval_digits_step by (apply N.mod_lt; discriminate).
    f_equal.
    rewrite (N.div_mod x 10) at 3 by discriminate.
    rewrite N2Z.inj_add, N2Z.inj_mul. simpl Z.of_N. lia.
Qed.

Lemma literal_eval_digits (s : string) (v : Z) :
  _JobCleanupManager.eval_digits 0 s = Some v -> v <> 0 ->
  _JobCleanupManager.literal_eval s = Some v.
Proof.
  intros Hs Hv. destruct s as [|c s'].
  - injection Hs as <-. contradiction.
  - destruct c as [[] [] [] [] [] [] [] []];
      first [exact Hs | cbn in Hs; discriminate Hs].
Qed.

Lemma literal_eval_pretty (z : Z) :
  _JobCleanupManager.literal_eval (pretty z) = Some z.
Proof.
  destruct z as [|p|p].
  - reflexivity.
  - change (pretty (Z.pos p)) with (pretty (N.pos p)).
    unfold pretty, pretty_N. rewrite decide_False by discriminate.
    destruct (eval_digits_pretty_N_go (N.pos p) EmptyString) as (c & Hc).
    apply literal_eval_digits; [| discriminate].
    rewrite Hc. reflexivity.
  - change (pretty (Z.neg p)) with (String "-" (pretty (N.pos p))).
    unfold pretty, pretty_N. rewrite decide_False by discriminate.
    destruct (eval_digits_pretty_N_go (N.pos p) EmptyString) as (c & Hc).
    specialize (Hc 0). rewrite Z.mul_0_l, Z.add_0_l in Hc.
    destruct (pretty_N_go (N.pos p) EmptyString) as [|ch rest] eqn:Hgo.
    + discriminate Hc.
    + change (Z.opp <$> _JobCleanupManager.eval_digits 0 (String ch rest)
              = Some (Z.neg p)).
      rewrite Hc. reflexivity.
Qed.

(** *** [endswith] *)

Lemma rev_app_append (a c : string) :
  String.rev_app a c = String.rev_app a EmptyString +:+ c.
Proof.
  revert c; induction a as [|x a IH]; intros c; [reflexivity |].
  cbn [String.rev_app].
  rewrite (IH (String x c)), (IH (String x EmptyString)), append_assoc.
  reflexivity.
Qed.

Lemma rev_append (a b : string) :
  String.rev (a +:+ b) = String.rev b +:+ String.rev a.
Proof.
  unfold String.rev. revert b.
  assert (Hgen : forall b c,
            String.rev_app (a +:+ b) c = String.rev_app b (String.rev_app a c)).
  { induction a as [|x a IH]; intros b c; [reflexivity |].
    change (String.rev_app (a +:+ b) (String x c)
            = String.rev_app b (String.rev_app a (String x c))).
    apply IH. }
  intros b. rewrite Hgen. apply rev_app_append.
Qed.

Lemma rev_involutive (s : string) : String.rev (String.rev s) = s.
Proof.
  induction s as [|x s IH]; [reflexivity |].
  change (String x s) with (String x EmptyString +:+ s) at 1.
  rewrite rev_append, rev_append, IH. reflexivity.
Qed.

Lemma prefix_append (a b : string) : String.prefix a (a +:+ b) = true.
Proof.
  induction a as [|x a IH]; [destruct b; reflexivity |].
  change (match ascii_dec x x with
          | left _ => String.prefix a (a +:+ b)
          | right _ => false
          end = true).
  destruct (ascii_dec x x) as [_|Hne]; [exact IH | contradiction].
Qed.

Lemma prefix_inv (a c : string) :
  String.prefix a c = true -> exists b, c = a +:+ b.
Proof.
  revert c; induction a as [|x a IH]; intros c Hp.
  - exists c. reflexivity.
  - destruct c as [|y c]; [discriminate Hp |].
    change (match ascii_dec x y with
            | left _ => String.prefix a c
            | right _ => false
            end = true) in Hp.
    destruct (ascii_dec x y) as [->|_]; [| discriminate Hp].
    destruct (IH c Hp) as (b & ->). exists b. reflexivity.
Qed.

Lemma endswith_spec (key suffix : string) :
  _JobCleanupManager.endswith key suffix = true
  <-> exists p, key = p +:+ suffix.
Proof.
  unfold _JobCleanupManager.endswith. split.
  - intros Hp. apply prefix_inv in Hp as (b & Hb).
    exists (String.rev b).
    rewrite <- (rev_involutive key), Hb, rev_append, rev_involutive.
    reflexivity.
  - intros (p & ->). rewrite rev_append. apply prefix_append.
Qed.

(** X11: handed the decimal renderings of integers, [reduce] never
    raises and logs their sum: as a delete count under a key that ends
    in '_deleted', as a remaining count under any other key (with no
    value at all the logged sum is 0). *)
Theorem reduce_logs_the_sum_by_kind_of_key :
  (forall (p : string) (values : list Z),
     _JobCleanupManager.reduce (p +:+ "_deleted") (pretty <$> values)
     = Some (Warning
               ("Delete count: " +:+ pretty (_JobCleanupManager.sum values)
                +:+ " entities (" +:+ (p +:+ "_deleted") +:+ ")")))
  /\ (forall (key : string) (values : list Z),
        (forall p, key <> p +:+ "_deleted") ->
        _JobCleanupManager.reduce key (pretty <$> values)
        = Some (Warning
                  ("Entities remaining count: "
                   +:+ pretty (_JobCleanupManager.sum values)
                   +:+ " entities (" +:+ key +:+ ")"))).
Proof.
  assert (Hvalues : forall values : list Z,
            mapM _JobCleanupManager.literal_eval (pretty <$> values)
            = Some values).
  { intros values. apply mapM_fmap_Some. exact literal_eval_pretty. }
  split.
  - intros p values. unfold _JobCleanupManager.reduce.
    rewrite Hvalues. cbn [mbind option_bind].
    rewrite (proj2 (endswith_spec (p +:+ "_deleted") "_deleted"))
      by (exists p; reflexivity).
    reflexivity.
  - intros key values Hkey. unfold _JobCleanupManager.reduce.
    rewrite Hvalues. cbn [mbind option_bind].
    destruct (_JobCleanupManager.endswith key "_deleted") eqn:He;
      [| reflexivity].
    apply endswith_spec in He as (p & Hp). destruct (Hkey p Hp).
Qed.

Lemma reduce_logs_the_sum_by_kind_of_key_witness :
  (forall p, "mr_state_remaining" <> p +:+ "_deleted")
  /\ _JobCleanupManager.reduce "mr_state_remaining" (pretty <$> [1; 1; 1])
     = Some (Warning
               "Entities remaining count: 3 entities (mr_state_remaining)")
  /\ _JobCleanupManager.reduce "shard_state_deleted" (pretty <$> [1; 1])
     = Some (Warning "Delete count: 2 entities (shard_state_deleted)").
Proof.
  assert (Hkey : forall p, "mr_state_remaining" <> p +:+ "_deleted").
  { intros p Hp.
    assert (He : _JobCleanupManager.endswith "mr_state_remaining" "_deleted"
                 = true)
      by (apply endswith_spec; exists p; exact Hp).
    vm_compute in He. discriminate He. }
  split; [exact Hkey |]. split.
  - exact (proj2 reduce_logs_the_sum_by_kind_of_key
             "mr_state_remaining" [1; 1; 1] Hkey).
  - exact (proj1 reduce_logs_the_sum_by_kind_of_key "shard_state" [1; 1]).
Defined.

(** X12: the mapper deletes nothing but the item it is given, and
    deletes it exactly when the item is stale (result status 'success'
    and start time, for a run, or update time, for a shard, before the
    [max_start_time_msec] parameter); it yields a tally under a key
    ending in '_deleted' exactly in that case. *)
Theorem map_deletes_exactly_stale_items `{Datetime}
    (get_mapper_param : string -> Z) (item : Entity) :
  (forall x,
     _JobCleanupManager.Delete x ∈ _JobCleanupManager.map get_mapper_param item
     <-> x = item /\ stale (get_mapper_param "max_start_time_msec") item)
  /\ ((exists k v p,
         _JobCleanupManager.Yield k v
         ∈ _JobCleanupManager.map get_mapper_param item
         /\ k = p +:+ "_deleted")
      <-> stale (get_mapper_param "max_start_time_msec") item).
Proof.
  assert (Hmap :
    (stale (get_mapper_param "max_start_time_msec") item
     /\ exists k, _JobCleanupManager.map get_mapper_param item
                  = [_JobCleanupManager.Delete item;
                     _JobCleanupManager.Yield k 1]
                  /\ exists p, k = p +:+ "_deleted")
    \/ (~ stale (get_mapper_param "max_start_time_msec") item
        /\ _JobCleanupManager.map get_mapper_param item
           = [_JobCleanupManager.Yield "mr_state_remaining" 1])).
  { destruct item as [mr|shard]; cbn [stale].
    - rewrite map_run_state.
      destruct (bool_decide _ && bool_decide _) eqn:Hc.
      + apply andb_prop in Hc as [Hs Ht]. apply bool_decide_eq_true in Hs, Ht.
        left. split; [auto |]. exists "mr_state_deleted".
        split; [reflexivity | exists "mr_state"; reflexivity].
      + right. split; [| reflexivity]. intros [Hs Ht].
        apply andb_false_iff in Hc as [Hc|Hc];
          apply bool_decide_eq_false in Hc; auto.
    - rewrite map_shard_state.
      destruct (bool_decide _ && bool_decide _) eqn:Hc.
      + apply andb_prop in Hc as [Hs Ht]. apply bool_decide_eq_true in Hs, Ht.
        left. split; [auto |]. exists "shard_state_deleted".
        split; [reflexivity | exists "shard_state"; reflexivity].
      + right. split; [| reflexivity]. intros [Hs Ht].
        apply andb_false_iff in Hc as [Hc|Hc];
          apply bool_decide_eq_false in Hc; auto. }
  destruct Hmap as [(Hstale & k & -> & p & ->)|(Hfresh & ->)].
  - split.
    + intros x. split.
      * intros [Hx|Hx]%elem_of_cons; [injection Hx as ->; auto |].
        apply list_elem_of_singleton in Hx. discriminate Hx.
      * intros [-> _]. left.
    + split; [intros _; exact Hstale |].
      intros _. exists (p +:+ "_deleted"), 1, p.
      split; [right; left | reflexivity].
  - split.
    + intros x. split.
      * intros Hx%list_elem_of_singleton. discriminate Hx.
      * intros [_ Hs]. destruct (Hfresh Hs).
    + split; [| intros Hs; destruct (Hfresh Hs)].
      intros (k & v & p & Hin%list_elem_of_singleton & Hk).
      injection Hin as -> _. exfalso.
      assert (He : _JobCleanupManager.endswith "mr_state_remaining" "_deleted"
                   = true)
        by (apply endswith_spec; exists p; exact Hk).
      vm_compute in He. discriminate He.
Qed.

(** X13: the mapper yields exactly one tally per item, of value 1 and
    under one of the three keys 'mr_state_deleted', 'mr_state_remaining'
    and 'shard_state_deleted'; over any list of items the tallies
    therefore number, and sum to, the number of items. *)
Theorem map_tallies_each_item_once `{Datetime}
    (get_mapper_param : string -> Z) :
  (forall item,
     exists k,
       k ∈ ["mr_state_deleted"; "mr_state_remaining"; "shard_state_deleted"]
       /\ (_JobCleanupManager.map get_mapper_param item
           = [_JobCleanupManager.Yield k 1]
           \/ _JobCleanupManager.map get_mapper_param item
              = [_JobCleanupManager.Delete item;
                 _JobCleanupManager.Yield k 1]))
  /\ (forall items,
        length (_JobCleanupManager.yielded get_mapper_param items)
        = length items
        /\ _JobCleanupManager.sum
             (snd <$> _JobCleanupManager.yielded get_mapper_param items)
           = Z.of_nat (length items)).
Proof.
  assert (Hone : forall item,
            exists k,
              k ∈ ["mr_state_deleted"; "mr_state_remaining";
                   "shard_state_deleted"]
              /\ (_JobCleanupManager.map get_mapper_param item
                  = [_JobCleanupManager.Yield k 1]
                  \/ _JobCleanupManager.map get_mapper_param item
                     = [_JobCleanupManager.Delete item;
                        _JobCleanupManager.Yield k 1])).
  { intros [mr|shard].
    - rewrite map_run_state. destruct (bool_decide _ && bool_decide _).
      + exists "mr_state_deleted". split; [left | right; reflexivity].
      + exists "mr_state_remaining".
        split; [right; left | left; reflexivity].
    - rewrite map_shard_state. destruct (bool_decide _ && bool_decide _).
      + exists "shard_state_deleted".
        split; [right; right; left | right; reflexivity].
      + exists "mr_state_remaining".
        split; [right; left | left; reflexivity]. }
  split; [exact Hone |].
  induction items as [|item rest [IHlen IHsum]]; [split; reflexivity |].
  unfold _JobCleanupManager.yielded in *. rewrite bind_cons.
  destruct (Hone item) as (k & _ & [-> | ->]); cbn [omap list_omap app];
    rewrite ?fmap_cons; cbn [length snd _JobCleanupManager.sum foldr];
    fold (_JobCleanupManager.sum
            (snd <$> (rest ≫= fun item0 =>
               omap (fun o => match o with
                              | _JobCleanupManager.Yield k0 v => Some (k0, v)
                              | _JobCleanupManager.Delete _ => None
                              end)
                 (_JobCleanupManager.map get_mapper_param item0))));
    rewrite IHlen, IHsum; split; try reflexivity; lia.
Qed.

(** * Further properties of the mailer *)

(** *** The lines of the mail *)

Lemma no_line_feed_append (a b : string) :
  no_line_feed (a +:+ b) = no_line_feed a && no_line_feed b.
Proof.
  induction a as [|c a IH]; [reflexivity |].
  change (negb (bool_decide (c = "010"%char)) && no_line_feed (a +:+ b)
          = negb (bool_decide (c = "010"%char)) && no_line_feed a
            && no_line_feed b).
  rewrite IH, andb_assoc. reflexivity.
Qed.

Lemma no_line_feed_pretty_N_go (x : N) :
  forall s, no_line_feed (pretty_N_go x s) = no_line_feed s.
Proof.
  induction (N.lt_wf_0 x) as [x _ IH]. intros s.
  destruct (decide (x = 0%N)) as [->|Hx]; [rewrite pretty_N_go_0; reflexivity |].
  assert (Hpos : (0 < x)%N) by lia.
  rewrite (pretty_N_go_step x s Hpos), IH
    by (apply N.div_lt; [exact Hpos | reflexivity]).
  assert (Hd : (x `mod` 10 < 10)%N) by (apply N.mod_lt; discriminate).
  set (d := (x `mod` 10)%N) in *. clearbody d.
  assert (Hcases : (d = 0 \/ d = 1 \/ d = 2 \/ d = 3 \/ d = 4 \/ d = 5
                    \/ d = 6 \/ d = 7 \/ d = 8 \/ d = 9)%N) by lia.
  repeat (destruct Hcases as [->|Hcases]; [reflexivity |]).
  rewrite Hcases. reflexivity.
Qed.

Lemma no_line_feed_pretty_N (x : N) : no_line_feed (pretty x) = true.
Proof.
  unfold pretty, pretty_N. case_decide; [reflexivity |].
  apply no_line_feed_pretty_N_go.
Qed.

Lemma no_line_feed_pretty_Z (z : Z) : no_line_feed (pretty z) = true.
Proof.
  destruct z as [|p|p]; [reflexivity | apply (no_line_feed_pretty_N (N.pos p)) |].
  change (pretty (Z.neg p)) with (String "-" (pretty (N.pos p))).
  change (no_line_feed (pretty (N.pos p)) = true).
  apply no_line_feed_pretty_N.
Qed.

Lemma lines_of_line_feed (s : string) :
  Examples.lines_of (String "010" s) = EmptyString :: Examples.lines_of s.
Proof. reflexivity. Qed.

Lemma lines_of_cons (c : ascii) (s : string) :
  c <> "010"%char ->
  Examples.lines_of (String c s)
  = match Examples.lines_of s with
    | l :: ls => String c l :: ls
    | [] => [String c EmptyString]
    end.
Proof.
  intros Hc. cbn [Examples.lines_of].
  rewrite bool_decide_eq_false_2 by exact Hc. reflexivity.
Qed.

Lemma no_line_feed_cons (c : ascii) (s : string) :
  no_line_feed (String c s) = true ->
  c <> "010"%char /\ no_line_feed s = true.
Proof.
  cbn [no_line_feed]. intros [Hc Hs]%andb_prop.
  apply negb_true_iff, bool_decide_eq_false in Hc. auto.
Qed.

(** A text without line feed in front of a line feed is a line. *)
Lemma lines_of_line (a b : string) :
  no_line_feed a = true ->
  Examples.lines_of (a +:+ String "010" b) = a :: Examples.lines_of b.
Proof.
  induction a as [|c a IH]; intros Ha; [apply lines_of_line_feed |].
  apply no_line_feed_cons in Ha as [Hc Ha].
  change (Examples.lines_of (String c (a +:+ String "010" b))
          = String c a :: Examples.lines_of b).
  rewrite (lines_of_cons c _ Hc), (IH Ha). reflexivity.
Qed.

(** A text without line feed in front of a text joins its first line. *)
Lemma lines_of_prepend (a b : string) :
  no_line_feed a = true ->
  Examples.lines_of (a +:+ b)
  = match Examples.lines_of b with
    | l :: ls => (a +:+ l) :: ls
    | [] => [a]
    end.
Proof.
  induction a as [|c a IH]; intros Ha.
  - change (EmptyString +:+ b) with b.
    destruct (Examples.lines_of b) eqn:Hb; [| reflexivity].
    destruct b as [|c b]; [discriminate Hb |].
    cbn [Examples.lines_of] in Hb.
    destruct (bool_decide (c = "010"%char)); [discriminate Hb |].
    destruct (Examples.lines_of b); discriminate Hb.
  - apply no_line_feed_cons in Ha as [Hc Ha].
    change (Examples.lines_of (String c (a +:+ b))
            = match Examples.lines_of b with
              | l :: ls => String c (a +:+ l) :: ls
              | [] => [String c a]
              end).
    rewrite (lines_of_cons c _ Hc), (IH Ha).
    destruct (Examples.lines_of b); reflexivity.
Qed.

Section MailLines.
Context `{Datetime}.

(** A detail block followed by [rest], line by line. *)
Lemma detail_block_layout (job : ShardState) (rest : string) :
  detail_block job +:+ rest
  = String "010"
      (JobStatusMailerHandler.separator
       +:+ String "010"
             (("Job with mapreduce ID " +:+ mapreduce_id job
               +:+ " (key name " +:+ key_name job
               +:+ ") failed. More info:")
              +:+ String "010"
                    (String "010"
                       (("  counters_map: " +:+ counters_map job)
                        +:+ String "010"
                              (("  shard_retries: " +:+ pretty (retries job))
                               +:+ String "010"
                                     (("  slice_retries: "
                                       +:+ pretty (slice_retries job))
                                      +:+ String "010"
                                            (("  last_update_time: "
                                              +:+ str_datetime
                                                    (update_time job))
                                             +:+ String "010"
                                                   (("  last_work_item: "
                                                     +:+ last_work_item job)
                                                    +:+ String "010" rest)))))))).
Proof.
  unfold detail_block, JobStatusMailerHandler.job_details, LF.
  rewrite !append_assoc. reflexivity.
Qed.

Lemma lines_of_detail_block (job : ShardState) (rest : string) :
  single_line_fields job ->
  Examples.lines_of (detail_block job +:+ rest)
  = EmptyString :: JobStatusMailerHandler.separator
    :: detail_lines job ++ Examples.lines_of rest.
Proof.
  intros (Hid & Hkn & Hcm & Hut & Hwi).
  rewrite detail_block_layout, lines_of_line_feed.
  rewrite lines_of_line by reflexivity.
  rewrite lines_of_line
    by (rewrite !no_line_feed_append, Hid, Hkn; reflexivity).
  rewrite lines_of_line_feed.
  rewrite lines_of_line by (rewrite no_line_feed_append, Hcm; reflexivity).
  rewrite lines_of_line
    by (rewrite no_line_feed_append, no_line_feed_pretty_Z; reflexivity).
  rewrite lines_of_line
    by (rewrite no_line_feed_append, no_line_feed_pretty_Z; reflexivity).
  rewrite lines_of_line by (rewrite no_line_feed_append, Hut; reflexivity).
  rewrite lines_of_line by (rewrite no_line_feed_append, Hwi; reflexivity).
  reflexivity.
Qed.

Lemma lines_of_join (jobs : list ShardState) :
  Forall single_line_fields jobs ->
  Examples.lines_of (join (detail_block <$> jobs))
  = EmptyString
    :: (jobs ≫= fun job =>
          JobStatusMailerHandler.separator :: detail_lines job
          ++ [EmptyString]).
Proof.
  induction 1 as [|job rest Hjob _ IH]; [reflexivity |].
  change (join (detail_block <$> job :: rest))
    with (detail_block job +:+ join (detail_block <$> rest)).
  rewrite (lines_of_detail_block job _ Hjob), IH, bind_cons.
  cbn [app]. rewrite <- app_assoc. reflexivity.
Qed.

Lemma separator_lines_of_block (job : ShardState) :
  filter (fun l => l = JobStatusMailerHandler.separator)
    (JobStatusMailerHandler.separator :: detail_lines job ++ [EmptyString])
  = [JobStatusMailerHandler.separator].
Proof.
  rewrite filter_cons_True by reflexivity. f_equal.
Qed.

Lemma separator_lines_of_blocks (jobs : list ShardState) :
  length (filter (fun l => l = JobStatusMailerHandler.separator)
            (jobs ≫= fun job =>
               JobStatusMailerHandler.separator :: detail_lines job
               ++ [EmptyString]))
  = length jobs.
Proof.
  induction jobs as [|job rest IH]; [reflexivity |].
  rewrite bind_cons, filter_app, separator_lines_of_block.
  cbn [app length]. rewrite IH. reflexivity.
Qed.

Lemma length_append (a b : string) :
  String.length (a +:+ b) = (String.length a + String.length b)%nat.
Proof.
  induction a as [|c a IH]; [reflexivity |].
  change (S (String.length (a +:+ b))
          = S (String.length a + String.length b)).
  rewrite IH. reflexivity.
Qed.

Lemma email_header_is_a_line (jobs : list ShardState) :
  no_line_feed (JobStatusMailerHandler.email_header jobs) = true
  /\ JobStatusMailerHandler.email_header jobs
     <> JobStatusMailerHandler.separator.
Proof.
  unfold JobStatusMailerHandler.email_header. split.
  - rewrite no_line_feed_append.
    replace (no_line_feed (pretty (length jobs))) with true
      by (symmetry; apply (no_line_feed_pretty_N (N.of_nat (length jobs)))).
    reflexivity.
  - intros Heq. apply (f_equal String.length) in Heq.
    rewrite length_append in Heq.
    remember (String.length (pretty (length jobs))) as n eqn:Hn. clear Hn.
    cbv - [Nat.add] in Heq. lia.
Qed.
End MailLines.

Lemma example_shard_single_line (n : nat) (st : option string) (u : Z) :
  single_line_fields (H := Examples.msec_datetime) (Examples.shard n st u).
Proof.
  unfold single_line_fields, Examples.shard. cbn.
  repeat split; try reflexivity.
  - apply (no_line_feed_pretty_N (N.of_nat n)).
  - apply (no_line_feed_pretty_N (N.of_nat n)).
  - apply no_line_feed_pretty_Z.
Qed.

(** X14: when the text fields of the reported jobs hold no line feed,
    the lines of a failure mail are the header line and then, for each
    of the first 50 stuck jobs in order, the separator line, the seven
    lines of its details and an empty line; so the number of separator
    lines is min(N, 50). *)
Theorem failure_mail_has_one_block_per_reported_job `{Datetime}
    (failed_jobs : list ShardState) :
  failed_jobs <> [] ->
  Forall single_line_fields (take 50 failed_jobs) ->
  Examples.lines_of (JobStatusMailerHandler.email_message failed_jobs)
  = JobStatusMailerHandler.email_header failed_jobs
    :: (take 50 failed_jobs ≫= fun job =>
          JobStatusMailerHandler.separator :: detail_lines job
          ++ [EmptyString])
  /\ Examples.count_blocks (JobStatusMailerHandler.email_message failed_jobs)
     = Nat.min (length failed_jobs) 50.
Proof.
  intros Hne Hfields.
  assert (Hlines :
    Examples.lines_of (JobStatusMailerHandler.email_message failed_jobs)
    = JobStatusMailerHandler.email_header failed_jobs
      :: (take 50 failed_jobs ≫= fun job =>
            JobStatusMailerHandler.separator :: detail_lines job
            ++ [EmptyString])).
  { destruct failed_jobs as [|job rest]; [contradiction |].
    unfold JobStatusMailerHandler.email_message.
    change JobStatusMailerHandler.MAX_JOBS_TO_REPORT_ON with 50%nat.
    rewrite foldl_append_job.
    rewrite lines_of_prepend by apply email_header_is_a_line.
    rewrite (lines_of_join _ Hfields), append_empty_r. reflexivity. }
  split; [exact Hlines |].
  unfold Examples.count_blocks. rewrite Hlines.
  rewrite filter_cons_False by apply email_header_is_a_line.
  rewrite separator_lines_of_blocks, length_take. lia.
Qed.

Lemma failure_mail_has_one_block_per_reported_job_witness :
  Examples.stuck_jobs 60 <> []
  /\ Examples.count_blocks
       (JobStatusMailerHandler.email_message (H := Examples.msec_datetime)
          (Examples.stuck_jobs 60))
     = Nat.min (length (Examples.stuck_jobs 60)) 50.
Proof.
  assert (Hne : Examples.stuck_jobs 60 <> []) by discriminate.
  split; [exact Hne |].
  apply (failure_mail_has_one_block_per_reported_job
           (H := Examples.msec_datetime) (Examples.stuck_jobs 60) Hne).
  apply Forall_forall. intros job Hjob.
  apply subseteq_take in Hjob. unfold Examples.stuck_jobs in Hjob.
  apply list_elem_of_fmap in Hjob as (i & -> & _).
  apply example_shard_single_line.
Defined.

(** X15: the stuck jobs after the 50th reach the mail through the
    total count only: two lists of stuck jobs of the same length that
    agree on their first 50 jobs give the same subject and body; and
    with at most 50 stuck jobs every job has its detail block. *)
Theorem mail_ignores_jobs_beyond_the_cap `{Datetime} :
  (forall jobs1 jobs2 : list ShardState,
     length jobs1 = length jobs2 -> take 50 jobs1 = take 50 jobs2 ->
     JobStatusMailerHandler.email_subject jobs1
     = JobStatusMailerHandler.email_subject jobs2
     /\ JobStatusMailerHandler.email_message jobs1
        = JobStatusMailerHandler.email_message jobs2)
  /\ (forall jobs : list ShardState,
        jobs <> [] -> (length jobs <= 50)%nat ->
        JobStatusMailerHandler.email_message jobs
        = JobStatusMailerHandler.email_header jobs
          +:+ join (detail_block <$> jobs)).
Proof.
  split.
  - intros jobs1 jobs2 Hlen Htake.
    destruct jobs1 as [|j1 r1], jobs2 as [|j2 r2]; try discriminate Hlen;
      [split; reflexivity |].
    split; [reflexivity |].
    unfold JobStatusMailerHandler.email_message,
      JobStatusMailerHandler.email_header.
    change JobStatusMailerHandler.MAX_JOBS_TO_REPORT_ON with 50%nat.
    rewrite Htake, Hlen. reflexivity.
  - intros jobs Hne Hle. destruct jobs as [|job rest]; [contradiction |].
    unfold JobStatusMailerHandler.email_message.
    change JobStatusMailerHandler.MAX_JOBS_TO_REPORT_ON with 50%nat.
    rewrite foldl_append_job, take_ge by exact Hle. reflexivity.
Qed.

Lemma mail_ignores_jobs_beyond_the_cap_witness :
  length (Examples.stuck_jobs 50 ++ [Examples.shard 98 None 1])
  = length (Examples.stuck_jobs 50 ++ [Examples.shard 99 None 2])
  /\ JobStatusMailerHandler.email_message (H := Examples.msec_datetime)
       (Examples.stuck_jobs 50 ++ [Examples.shard 98 None 1])
     = JobStatusMailerHandler.email_message (H := Examples.msec_datetime)
         (Examples.stuck_jobs 50 ++ [Examples.shard 99 None 2]).
Proof.
  split; [reflexivity |].
  apply (proj1 (mail_ignores_jobs_beyond_the_cap (H := Examples.msec_datetime))
           (Examples.stuck_jobs 50 ++ [Examples.shard 98 None 1])
           (Examples.stuck_jobs 50 ++ [Examples.shard 99 None 2]));
    reflexivity.
Defined.

(** * Further properties of the decorator *)

(** X16: for any handler, the decorated handler returns what the
    handler returns when the request carries the [X-AppEngine-Cron]
    header, whatever its value, or comes from a superadmin; for any
    other request it raises [UnauthorizedUserException] without running
    the handler; and decorating twice is the same as decorating once. *)
Theorem decorator_guards_any_handler {R : Type}
    (handler : Request -> Exception + R) (self : Request) :
  (is_Some (headers self !! "X-AppEngine-Cron") \/ is_super_admin self = true ->
   require_cron_or_superadmin handler self = handler self)
  /\ (headers self !! "X-AppEngine-Cron" = None ->
      is_super_admin self = false ->
      forall handler' : Request -> Exception + R,
        require_cron_or_superadmin handler' self
        = inl (UnauthorizedUserException
                 "You do not have the credentials to access this page."))
  /\ require_cron_or_superadmin (require_cron_or_superadmin handler) self
     = require_cron_or_superadmin handler self.
Proof.
  unfold require_cron_or_superadmin. split; [| split].
  - intros [[v Hv]|Hadmin].
    + rewrite Hv. reflexivity.
    + rewrite Hadmin, andb_false_r. reflexivity.
  - intros Hcron Hadmin handler'. rewrite Hcron, Hadmin. reflexivity.
  - destruct (bool_decide _ && negb _); reflexivity.
Qed.

Lemma decorator_guards_any_handler_witness :
  is_Some (headers
             {| headers := {[ "X-AppEngine-Cron" := "false" ]};
                is_super_admin := false |} !! "X-AppEngine-Cron")
  /\ require_cron_or_superadmin (fun _ => inr 7%nat)
       {| headers := {[ "X-AppEngine-Cron" := "false" ]};
          is_super_admin := false |}
     = inr 7%nat
  /\ require_cron_or_superadmin (fun _ => inr 7%nat)
       Examples.anonymous_request
     = inl (UnauthorizedUserException
              "You do not have the credentials to access this page.").
Proof.
  assert (Hcron : is_Some
            (headers {| headers := {[ "X-AppEngine-Cron" := "false" ]};
                        is_super_admin := false |} !! "X-AppEngine-Cron"))
    by (exists "false"; reflexivity).
  split; [exact Hcron |]. split.
  - apply (proj1 (decorator_guards_any_handler (fun _ => inr 7%nat)
                    {| headers := {[ "X-AppEngine-Cron" := "false" ]};
                       is_super_admin := false |})).
    left. exact Hcron.
  - apply (proj1 (proj2 (decorator_guards_any_handler (fun _ => inr 7%nat)
                           Examples.anonymous_request)));
      reflexivity.
Defined.
